(** * Galatea-OS: the background task scheduler

    A shallow embedding of [background_task_service.py] and the
    verification of its availability engine, selection policy, settle
    step and run cycle.

    Modelling scope.
    - A task is the JSON object of the task file, typed as the data model
      describes it: every key is optional and [None] stands for a missing
      key (for the fields the service reads without a default, such as
      [next_available_at], also for the JSON null it writes there, which
      [dict.get] does not tell apart); booleans are [bool], integers are
      [Z], numbers read through [float(...)] are binary64 values
      ([spec_float] with [prec = 53], [emax = 1024]).
    - A point in time is an instant: microseconds since the Unix epoch, in
      UTC, as [datetime.now(timezone.utc)] yields them; Python's bound on
      the year is not modelled.  [datetime.isoformat] and
      [datetime.fromisoformat] belong to the Python library and are taken
      as an interface ([Datetime]); the development holds for every
      implementation of it.  The interface speaks of offset-aware
      timestamps, the only kind the service writes; a text without UTC
      offset, which Python reads as a naive datetime that cannot be
      compared with the clock reading, is outside the model.
    - Python strings are [string]s whose characters are code points
      below 256.
    - The process state (clock, the two JSON files, the adapters' log
      files) is a [World]; effectful code runs in the monad [M], which
      threads the world and propagates exceptions. *)

From Stdlib Require Import ZArith List String Ascii Bool Lia.
From Stdlib Require Import Sorted Permutation.
From Stdlib Require Import Floats.SpecFloat.
Import ListNotations.

Local Open Scope string_scope.
Local Open Scope Z_scope.

(* ===================================================================== *)
(** * Python builtins the service relies on *)
(* ===================================================================== *)

Module PyStr.

(** [str.isspace] on one character, for code points below 256:
    TAB..CR, the separators FS..US, SPACE, NEL and NBSP. *)
Definition isspace (c : ascii) : bool :=
  let n := N_of_ascii c in
  (((9 <=? n) && (n <=? 13)) || ((28 <=? n) && (n <=? 32))
   || (n =? 133) || (n =? 160))%N.

Fixpoint lstrip (s : string) : string :=
  match s with
  | EmptyString => EmptyString
  | String c s' => if isspace c then lstrip s' else s
  end.

Fixpoint rstrip (s : string) : string :=
  match s with
  | EmptyString => EmptyString
  | String c s' =>
      match rstrip s' with
      | EmptyString => if isspace c then EmptyString else String c EmptyString
      | r => String c r
      end
  end.

(** [s.strip()] *)
Definition strip (s : string) : string := rstrip (lstrip s).

(** [a == b] where either side may be [None]. *)
Definition eqb_opt (a b : option string) : bool :=
  match a, b with
  | Some x, Some y => String.eqb x y
  | None, None => true
  | _, _ => false
  end.

(** Truth value of an [Optional[str]]: [None] and the empty string are
    false. *)
Definition truthy (o : option string) : bool :=
  match o with
  | Some s => negb (String.eqb s "")
  | None => false
  end.

(** [value or ""] *)
Definition or_empty (o : option string) : string :=
  if truthy o then match o with Some s => s | None => "" end else "".

End PyStr.

Module PyFloat.

(** Python's [float] is IEEE 754 binary64. *)
Definition prec : Z := 53.
Definition emax : Z := 1024.

Definition float := spec_float.

(** [float(z)] for an integer literal. *)
Definition of_Z (z : Z) : float := binary_normalize prec emax z 0 false.

Definition mul (x y : float) : float := SFmul prec emax x y.
Definition ltb (x y : float) : bool := SFltb x y.
Definition eqb (x y : float) : bool := SFeqb x y.

Definition is_nan (x : float) : bool :=
  match x with S754_nan => true | _ => false end.

End PyFloat.

Module PySort.

Section Sort.
Context {A : Type}.
Variable lt : A -> A -> bool.

(** One step of the insertion sort [list.sort] runs on short lists:
    the new element goes behind every element that is not greater. *)
Fixpoint insert (x : A) (l : list A) : list A :=
  match l with
  | [] => [x]
  | y :: l' => if lt x y then x :: y :: l' else y :: insert x l'
  end.

(** [l.sort()]: stable, ascending, only [<] is used.  Whenever [<] orders
    the elements, the result is the one stable ascending arrangement of
    the list ([sort_stable_ascending] below), which is what any stable
    sort returns. *)
Definition sort (l : list A) : list A :=
  fold_left (fun acc x => insert x acc) l [].

(** [l.sort(reverse=True)]: the list is reversed, sorted and reversed
    again, so that equal elements keep their original order. *)
Definition sort_reverse (l : list A) : list A :=
  rev (sort (rev l)).
End Sort.

End PySort.

(* ===================================================================== *)
(** * Data model *)
(* ===================================================================== *)

Record Runtime := mkRuntime {
  enabled : option bool
}.

Record Bounty := mkBounty {
  reward : option PyFloat.float;
  priority : option Z;
  cooldown_sec : option Z
}.

Record QLearning := mkQLearning {
  state_key : option string;
  action_key : option string;
  reward_weight : option PyFloat.float
}.

Record State := mkState {
  status : option string;
  available : option bool;
  last_started_at : option string;
  last_completed_at : option string;
  next_available_at : option string;
  last_result : option string;
  consecutive_failures : option Z
}.

Record Task := mkTask {
  task_id : option string;
  task_name : option string;
  task_action : option string;
  task_domain : option string;
  task_runtime : option Runtime;
  task_bounty : option Bounty;
  task_q_learning : option QLearning;
  task_state : option State
}.

(** The task file: a JSON object with the key ["tasks"]. *)
Record Data := mkData {
  tasks : option (list Task)
}.

Record TaskRunResult := mkTaskRunResult {
  ok : bool;
  details : string
}.

Record BoardEntry := mkBoardEntry {
  be_id : option string;
  be_name : option string;
  be_action : option string;
  be_domain : option string;
  be_available : bool;
  be_cooldown_sec : Z;
  be_next_available_at : option string;
  be_reward : PyFloat.float;
  be_priority : Z;
  be_state_key : option string;
  be_action_key : option string;
  be_reward_weight : PyFloat.float;
  be_last_result : option string
}.

Record Board := mkBoard {
  updated_at : string;
  loop_type : string;
  board_tasks : list BoardEntry
}.

(** What [run_once] returns: [{"ran": False, "reason": r}] or
    [{"ran": True, "task_id": i, "ok": b, "details": d}]. *)
Inductive RunReport :=
| NotRun (reason : string)
| Ran (id : option string) (ok : bool) (details : string).

Definition ran (r : RunReport) : bool :=
  match r with NotRun _ => false | Ran _ _ _ => true end.

(** ** Dictionary access with defaults *)

Definition get_or {A} (o : option A) (d : A) : A :=
  match o with Some a => a | None => d end.

Definition empty_runtime : Runtime := mkRuntime None.
Definition empty_bounty : Bounty := mkBounty None None None.
Definition empty_q_learning : QLearning := mkQLearning None None None.
Definition empty_state : State := mkState None None None None None None None.

(** [task.get("runtime", {})] and its siblings. *)
Definition get_runtime (t : Task) : Runtime := get_or (task_runtime t) empty_runtime.
Definition get_bounty (t : Task) : Bounty := get_or (task_bounty t) empty_bounty.
Definition get_q_learning (t : Task) : QLearning :=
  get_or (task_q_learning t) empty_q_learning.
Definition get_state (t : Task) : State := get_or (task_state t) empty_state.

(** [data.get("tasks", [])] *)
Definition get_tasks (d : Data) : list Task := get_or (tasks d) [].

(** ** Item assignment on the [state] dictionary *)

Definition set_status (v : option string) (s : State) : State :=
  mkState v (available s) (last_started_at s) (last_completed_at s)
          (next_available_at s) (last_result s) (consecutive_failures s).

Definition set_available (v : option bool) (s : State) : State :=
  mkState (status s) v (last_started_at s) (last_completed_at s)
          (next_available_at s) (last_result s) (consecutive_failures s).

Definition set_last_started_at (v : option string) (s : State) : State :=
  mkState (status s) (available s) v (last_completed_at s)
          (next_available_at s) (last_result s) (consecutive_failures s).

Definition set_last_completed_at (v : option string) (s : State) : State :=
  mkState (status s) (available s) (last_started_at s) v
          (next_available_at s) (last_result s) (consecutive_failures s).

Definition set_next_available_at (v : option string) (s : State) : State :=
  mkState (status s) (available s) (last_started_at s) (last_completed_at s)
          v (last_result s) (consecutive_failures s).

Definition set_last_result (v : option string) (s : State) : State :=
  mkState (status s) (available s) (last_started_at s) (last_completed_at s)
          (next_available_at s) v (consecutive_failures s).

Definition set_consecutive_failures (v : option Z) (s : State) : State :=
  mkState (status s) (available s) (last_started_at s) (last_completed_at s)
          (next_available_at s) (last_result s) v.

(** [task["state"] = s] *)
Definition set_state (s : State) (t : Task) : Task :=
  mkTask (task_id t) (task_name t) (task_action t) (task_domain t)
         (task_runtime t) (task_bounty t) (task_q_learning t) (Some s).

(** [data["tasks"]] holds the list [l] after the loop over it. *)
Definition set_tasks (l : list Task) (d : Data) : Data :=
  match tasks d with
  | Some _ => mkData (Some l)
  | None => d
  end.

(* ===================================================================== *)
(** * Time *)
(* ===================================================================== *)

(** The two library functions on timestamps.  [isoformat t] renders the
    instant [t]; [fromisoformat s] is [Some t] when [s] parses to the
    instant [t] and [None] when the library raises [ValueError]. *)
Class Datetime := {
  isoformat : Z -> string;
  fromisoformat : string -> option Z
}.

(** [timedelta(seconds=n)] in microseconds. *)
Definition timedelta_seconds (n : Z) : Z := n * 1000000.

(* ===================================================================== *)
(** * The world and the monad of effects *)
(* ===================================================================== *)

Inductive exn :=
| FileNotFoundError (msg : string)
| StopIteration
| AdapterError (msg : string).

Inductive result (A : Type) :=
| Ok (a : A)
| Raise (e : exn).
Arguments Ok {A} a.
Arguments Raise {A} e.

Record World := mkWorld {
  clock : nat -> Z;                   (* the k-th reading of the system clock *)
  ticks : nat;                        (* readings taken so far *)
  task_store : option Data;           (* the task file, if it exists *)
  bounty_board : option Board;        (* the bounty board file, if it exists *)
  text_files : list (string * string) (* files the adapters write, newest first *)
}.

Definition M (A : Type) : Type := World -> result A * World.

Definition ret {A} (a : A) : M A := fun w => (Ok a, w).

Definition bind {A B} (m : M A) (k : A -> M B) : M B :=
  fun w =>
    match m w with
    | (Ok a, w') => k a w'
    | (Raise e, w') => (Raise e, w')
    end.

Definition raise {A} (e : exn) : M A := fun w => (Raise e, w).

Declare Scope py_scope.
Delimit Scope py_scope with py.
Notation "x <- m ;; k" := (bind m (fun x => k))
  (at level 61, m at next level, right associativity) : py_scope.
Notation "m ;;; k" := (bind m (fun _ => k))
  (at level 61, right associativity) : py_scope.
Local Open Scope py_scope.

(** The world after one more reading of the clock. *)
Definition tick (w : World) : World :=
  mkWorld (clock w) (S (ticks w)) (task_store w) (bounty_board w)
          (text_files w).

(** [utc_now()]: one reading of the clock. *)
Definition utc_now : M Z :=
  fun w => (Ok (clock w (ticks w)), tick w).

Definition write_task_store (d : Data) : M unit :=
  fun w => (Ok tt, mkWorld (clock w) (ticks w) (Some d) (bounty_board w)
                           (text_files w)).

Definition write_bounty_board (b : Board) : M unit :=
  fun w => (Ok tt, mkWorld (clock w) (ticks w) (task_store w) (Some b)
                           (text_files w)).

Definition write_text (path content : string) : M unit :=
  fun w => (Ok tt, mkWorld (clock w) (ticks w) (task_store w) (bounty_board w)
                           ((path, content) :: text_files w)).

(** ** The adapters and the service object *)

Record BrowserAutomationAdapter := mkBrowserAutomationAdapter {
  claim_daily_rewards : Task -> M TaskRunResult;
  close_advertisement : Task -> M TaskRunResult
}.

Record ServiceAutomationAdapter := mkServiceAutomationAdapter {
  memory_update : Task -> M TaskRunResult;
  reload_service : Task -> M TaskRunResult
}.

Record BackgroundTaskService := mkBackgroundTaskService {
  task_file : string;
  bounty_board_file : string;
  browser_adapter : BrowserAutomationAdapter;
  service_adapter : ServiceAutomationAdapter
}.

(** [next(t for t in l if p(t))], with the elements before and after the
    one found; [None] when the generator is exhausted. *)
Fixpoint split_first {A} (p : A -> bool) (l : list A)
  : option (list A * A * list A) :=
  match l with
  | [] => None
  | x :: l' =>
      if p x then Some ([], x, l')
      else match split_first p l' with
           | Some (before, y, after) => Some (x :: before, y, after)
           | None => None
           end
  end.

Definition newline : string := String (ascii_of_nat 10) EmptyString.

Section Service.

Context {DT : Datetime}.

(** [iso_now()] *)
Definition iso_now : M string :=
  now <- utc_now ;; ret (isoformat now).

(** [parse_iso_or_none(value)] *)
Definition parse_iso_or_none (value : option string) : option Z :=
  if negb (PyStr.truthy value) then None
  else match value with
       | Some s => fromisoformat s   (* ValueError is caught: None *)
       | None => None
       end.

(** ** Availability engine *)

(** [BackgroundTaskService._available(task, now)] *)
Definition _available (task : Task) (now : Z) : bool :=
  let runtime := get_runtime task in
  let state := get_state task in
  if negb (get_or (enabled runtime) true) then false
  else if PyStr.eqb_opt (status state) (Some "running") then false
  else
    let next_at := parse_iso_or_none (next_available_at state) in
    match next_at with
    | Some next_at => if Z.ltb now next_at then false else true
    | None => true
    end.

(** The body of the loop of [_refresh_availability]. *)
Definition refresh_task (now : Z) (task : Task) : Task :=
  let task := set_state (get_state task) task in
  set_state (set_available (Some (_available task now)) (get_state task)) task.

Definition refresh_at (now : Z) (data : Data) : Data :=
  set_tasks (map (refresh_task now) (get_tasks data)) data.

(** [BackgroundTaskService._refresh_availability(data)]; the refreshed
    document is returned, the source updates it in place. *)
Definition _refresh_availability (data : Data) : M Data :=
  now <- utc_now ;; ret (refresh_at now data).

(** ** Default adapters *)

Definition default_browser_adapter : BrowserAutomationAdapter :=
  mkBrowserAutomationAdapter
    (fun _ => ret (mkTaskRunResult false
                "Browser adapter not configured for claim_daily_rewards"))
    (fun _ => ret (mkTaskRunResult false
                "Browser adapter not configured for close_advertisement")).

Definition default_service_adapter : ServiceAutomationAdapter :=
  mkServiceAutomationAdapter
    (fun _ =>
       let log_path := "KMS/background_memory_update.log" in
       now <- iso_now ;;
       write_text log_path (now ++ " memory updated" ++ newline) ;;;
       ret (mkTaskRunResult true ("Wrote " ++ log_path)))
    (fun _ =>
       let log_path := "KMS/background_service_reload.log" in
       now <- iso_now ;;
       write_text log_path (now ++ " service reload requested" ++ newline) ;;;
       ret (mkTaskRunResult true ("Wrote " ++ log_path))).

(** [BackgroundTaskService.__init__] *)
Definition new_service (task_file bounty_board_file : string)
    (browser_adapter : option BrowserAutomationAdapter)
    (service_adapter : option ServiceAutomationAdapter)
  : BackgroundTaskService :=
  mkBackgroundTaskService task_file bounty_board_file
    (get_or browser_adapter default_browser_adapter)
    (get_or service_adapter default_service_adapter).

(** ** Task store *)

(** [BackgroundTaskService._load()] *)
Definition _load (self : BackgroundTaskService) : M Data :=
  fun w =>
    match task_store w with
    | None => (Raise (FileNotFoundError
                        ("Task file not found: " ++ task_file self)), w)
    | Some data => (Ok data, w)
    end.

(** [BackgroundTaskService._save(data)] *)
Definition _save (self : BackgroundTaskService) (data : Data) : M unit :=
  write_task_store data.

(** ** Bounty board publisher *)

Definition board_entry (t : Task) : BoardEntry :=
  mkBoardEntry
    (task_id t) (task_name t) (task_action t) (task_domain t)
    (get_or (available (get_state t)) false)
    (get_or (cooldown_sec (get_bounty t)) 0)
    (next_available_at (get_state t))
    (get_or (reward (get_bounty t)) (PyFloat.of_Z 0))
    (get_or (priority (get_bounty t)) 0)
    (state_key (get_q_learning t))
    (action_key (get_q_learning t))
    (get_or (reward_weight (get_q_learning t)) (PyFloat.of_Z 1))
    (last_result (get_state t)).

(** [BackgroundTaskService._to_bounty_board(data)]; the refresh it starts
    with changes [data], which is returned next to the board. *)
Definition _to_bounty_board (data : Data) : M (Board * Data) :=
  data <- _refresh_availability data ;;
  let items := map board_entry (get_tasks data) in
  now <- iso_now ;;
  ret (mkBoard now "closed" items, data).

(** [BackgroundTaskService._write_bounty_board(data)] *)
Definition _write_bounty_board (self : BackgroundTaskService) (data : Data)
  : M Data :=
  bd <- _to_bounty_board data ;;
  write_bounty_board (fst bd) ;;;
  ret (snd bd).

(** ** Action dispatcher *)

(** [BackgroundTaskService._execute_action(task)] *)
Definition _execute_action (self : BackgroundTaskService) (task : Task)
  : M TaskRunResult :=
  let action := PyStr.strip (PyStr.or_empty (task_action task)) in
  if String.eqb action "memory_update" then
    memory_update (service_adapter self) task
  else if String.eqb action "reload_service" then
    reload_service (service_adapter self) task
  else if String.eqb action "claim_daily_rewards" then
    claim_daily_rewards (browser_adapter self) task
  else if String.eqb action "close_advertisement" then
    close_advertisement (browser_adapter self) task
  else ret (mkTaskRunResult false ("Unknown action: " ++ action)).

(** ** Selection policy *)

(** [t.get("state", {}).get("available", False)] *)
Definition state_available (t : Task) : bool :=
  get_or (available (get_state t)) false.

(** The key of the greedy ranking. *)
Definition sort_key (t : Task) : PyFloat.float * Z :=
  (PyFloat.mul (get_or (reward (get_bounty t)) (PyFloat.of_Z 0))
               (get_or (reward_weight (get_q_learning t)) (PyFloat.of_Z 1)),
   get_or (priority (get_bounty t)) 0).

(** [a < b] on pairs [(float, int)]: the first components decide unless
    they are equal. *)
Definition tuple_lt (a b : PyFloat.float * Z) : bool :=
  if PyFloat.eqb (fst a) (fst b) then Z.ltb (snd a) (snd b)
  else PyFloat.ltb (fst a) (fst b).

Definition key_lt (a b : Task) : bool := tuple_lt (sort_key a) (sort_key b).

(** [BackgroundTaskService._pick_task_id(data, preferred_task_id)] *)
Definition _pick_task_id (data : Data) (preferred_task_id : option string)
  : option string :=
  let tasks := get_tasks data in
  if PyStr.truthy preferred_task_id then
    if existsb (fun t => PyStr.eqb_opt (task_id t) preferred_task_id
                         && state_available t) tasks
    then preferred_task_id
    else None
  else
    let candidates := filter state_available tasks in
    match candidates with
    | [] => None
    | _ :: _ =>
        match PySort.sort_reverse key_lt candidates with
        | top :: _ => task_id top
        | [] => None
        end
    end.

(** ** Settle *)

Definition mark_post_run_at (now : Z) (task : Task) (result : TaskRunResult)
  : Task :=
  let state := get_state task in
  let bounty := get_bounty task in
  let cooldown := get_or (cooldown_sec bounty) 0 in
  let state :=
    set_status (Some (if ok result then "success" else "failed")) state in
  let state := set_last_completed_at (Some (isoformat now)) state in
  let state := set_last_result (Some (details result)) state in
  let state :=
    set_consecutive_failures
      (Some (if ok result then 0
             else get_or (consecutive_failures state) 0 + 1)) state in
  let state :=
    set_next_available_at
      (if Z.ltb 0 cooldown
       then Some (isoformat (now + timedelta_seconds cooldown))
       else None) state in
  let state :=
    set_available (Some (if Z.ltb 0 cooldown then false else true)) state in
  set_state state task.

(** [BackgroundTaskService._mark_post_run(task, result)] *)
Definition _mark_post_run (task : Task) (result : TaskRunResult) : M Task :=
  now <- utc_now ;; ret (mark_post_run_at now task result).

(** ** Run orchestrator *)

(** The three assignments that mark the selected task as running. *)
Definition mark_running (started : string) (task : Task) : Task :=
  let state := get_state task in
  let state := set_status (Some "running") state in
  let state := set_last_started_at (Some started) state in
  let state := set_available (Some false) state in
  set_state state task.

(** [BackgroundTaskService.run_once(preferred_task_id)] *)
Definition run_once (self : BackgroundTaskService)
    (preferred_task_id : option string) : M RunReport :=
  data <- _load self ;;
  data <- _refresh_availability data ;;
  let task_id_ := _pick_task_id data preferred_task_id in
  if negb (PyStr.truthy task_id_) then
    data <- _write_bounty_board self data ;;
    _save self data ;;;
    ret (NotRun "no_available_task")
  else
    match split_first (fun t => PyStr.eqb_opt (task_id t) task_id_)
                      (get_tasks data) with
    | None => raise StopIteration
    | Some (before, task, after) =>
        started <- iso_now ;;
        let task := mark_running started task in
        result <- _execute_action self task ;;
        task <- _mark_post_run task result ;;
        let data := set_tasks (before ++ task :: after) data in
        data <- _refresh_availability data ;;
        data <- _write_bounty_board self data ;;
        _save self data ;;;
        ret (Ran task_id_ (ok result) (details result))
    end.

End Service.

(* ===================================================================== *)
(** * Continuous run mode *)
(* ===================================================================== *)

Section ContinuousRun.

Context {DT : Datetime}.

(** [BackgroundTaskService.run_forever(interval_sec)], its first [cycles]
    turns of the loop.  The loop of the source has no exit, so the model is
    told how many turns to take.  What [logger.info] receives is returned as
    a list, oldest report first; [asyncio.sleep] lets time pass and changes
    nothing else. *)
Fixpoint run_forever (cycles : nat) (self : BackgroundTaskService)
    (interval_sec : PyFloat.float) : M (list RunReport) :=
  match cycles with
  | O => ret []
  | S cycles' =>
      result <- run_once self None ;;
      logged <- run_forever cycles' self interval_sec ;;
      ret (if ran result then result :: logged else logged)
  end.

End ContinuousRun.

(* ===================================================================== *)
(** * A reference implementation of the timestamp interface *)
(* ===================================================================== *)

(** The text [isoformat] gives for an aware UTC datetime,
    [YYYY-MM-DDTHH:MM:SS[.ffffff]+00:00], and a parser for texts of that
    shape with any UTC offset.  It serves to run the model on concrete
    task files; no theorem below depends on it. *)
Module Iso8601.

Definition us_per_day : Z := 86400000000.

(** Proleptic Gregorian calendar: day number (0 is 1970-01-01) of a date. *)
Definition days_from_civil (y m d : Z) : Z :=
  let y := if m <=? 2 then y - 1 else y in
  let era := y / 400 in
  let yoe := y - era * 400 in
  let mp := if 2 <? m then m - 3 else m + 9 in
  let doy := (153 * mp + 2) / 5 + d - 1 in
  let doe := yoe * 365 + yoe / 4 - yoe / 100 + doy in
  era * 146097 + doe - 719468.

Definition civil_from_days (z : Z) : Z * Z * Z :=
  let z := z + 719468 in
  let era := z / 146097 in
  let doe := z - era * 146097 in
  let yoe := (doe - doe / 1460 + doe / 36524 - doe / 146096) / 365 in
  let doy := doe - (365 * yoe + yoe / 4 - yoe / 100) in
  let mp := (5 * doy + 2) / 153 in
  let d := doy - (153 * mp + 2) / 5 + 1 in
  let m := if mp <? 10 then mp + 3 else mp - 9 in
  let y := yoe + era * 400 in
  ((if m <=? 2 then y + 1 else y), m, d).

Definition digit (n : Z) : ascii := ascii_of_N (Z.to_N (48 + n mod 10)).

(** [n] in decimal on [width] digits, in front of [acc]. *)
Fixpoint zfill (width : nat) (n : Z) (acc : string) : string :=
  match width with
  | O => acc
  | S w => zfill w (n / 10) (String (digit n) acc)
  end.

Definition print (t : Z) : string :=
  let days := t / us_per_day in
  let rest := t mod us_per_day in
  let secs := rest / 1000000 in
  let micro := rest mod 1000000 in
  let '(y, m, d) := civil_from_days days in
  zfill 4 y ("-" ++ zfill 2 m ("-" ++ zfill 2 d ("T" ++
  zfill 2 (secs / 3600) (":" ++ zfill 2 (secs / 60 mod 60) (":" ++
  zfill 2 (secs mod 60)
    ((if micro =? 0 then "" else "." ++ zfill 6 micro "") ++ "+00:00")))))).

Definition digit_value (c : ascii) : option Z :=
  let n := Z.of_N (N_of_ascii c) in
  if (48 <=? n) && (n <=? 57) then Some (n - 48) else None.

(** Reads [width] decimal digits. *)
Fixpoint number (width : nat) (acc : Z) (s : string) : option (Z * string) :=
  match width, s with
  | O, _ => Some (acc, s)
  | S w, String c s' =>
      match digit_value c with
      | Some v => number w (10 * acc + v) s'
      | None => None
      end
  | S _, EmptyString => None
  end.

Definition expect (c : ascii) (s : string) : option string :=
  match s with
  | String c' s' => if Ascii.eqb c c' then Some s' else None
  | EmptyString => None
  end.

Definition skip (s : string) : option string :=
  match s with String _ s' => Some s' | EmptyString => None end.

Definition is_leap (y : Z) : bool :=
  (y mod 4 =? 0) && (negb (y mod 100 =? 0) || (y mod 400 =? 0)).

Definition days_in_month (y m : Z) : Z :=
  if m =? 2 then (if is_leap y then 29 else 28)
  else if (m =? 4) || (m =? 6) || (m =? 9) || (m =? 11) then 30 else 31.

Definition opt_bind {A B} (o : option A) (k : A -> option B) : option B :=
  match o with Some a => k a | None => None end.

Definition fraction (s : string) : option (Z * string) :=
  match s with
  | String "." s' => number 6 0 s'
  | _ => Some (0, s)
  end.

Definition offset (s : string) : option Z :=
  match s with
  | String sign s' =>
      opt_bind (number 2 0 s') (fun '(oh, s1) =>
      opt_bind (expect ":" s1) (fun s2 =>
      opt_bind (number 2 0 s2) (fun '(om, s3) =>
        let secs := oh * 3600 + om * 60 in
        match s3 with
        | EmptyString =>
            if negb ((oh <? 24) && (om <? 60)) then None
            else if Ascii.eqb sign "+" then Some secs
            else if Ascii.eqb sign "-" then Some (- secs)
            else None
        | _ => None
        end)))
  | EmptyString => None
  end.

Definition parse (s : string) : option Z :=
  opt_bind (number 4 0 s) (fun '(y, s) =>
  opt_bind (expect "-" s) (fun s =>
  opt_bind (number 2 0 s) (fun '(m, s) =>
  opt_bind (expect "-" s) (fun s =>
  opt_bind (number 2 0 s) (fun '(d, s) =>
  opt_bind (skip s) (fun s =>
  opt_bind (number 2 0 s) (fun '(hh, s) =>
  opt_bind (expect ":" s) (fun s =>
  opt_bind (number 2 0 s) (fun '(mi, s) =>
  opt_bind (expect ":" s) (fun s =>
  opt_bind (number 2 0 s) (fun '(ss, s) =>
  opt_bind (fraction s) (fun '(micro, s) =>
  opt_bind (offset s) (fun off =>
    if (1 <=? y) && (1 <=? m) && (m <=? 12) && (1 <=? d)
       && (d <=? days_in_month y m)
       && (hh <? 24) && (mi <? 60) && (ss <? 60)
    then Some ((days_from_civil y m d * 86400
                + hh * 3600 + mi * 60 + ss - off) * 1000000 + micro)
    else None))))))))))))).

Definition datetime : Datetime := Build_Datetime print parse.

End Iso8601.

(* ===================================================================== *)
(** * Vocabulary of the statements *)
(* ===================================================================== *)

Section Vocabulary.

Context {DT : Datetime}.

(** The three inputs of [_available], as one function of them. *)
Definition available_of (en : option bool) (st nxt : option string) (now : Z)
  : bool :=
  get_or en true
  && negb (PyStr.eqb_opt st (Some "running"))
  && match parse_iso_or_none nxt with
     | Some next_at => negb (Z.ltb now next_at)
     | None => true
     end.

End Vocabulary.

(** The two components of the ranking key of a task. *)
Definition score (t : Task) : PyFloat.float := fst (sort_key t).
Definition prio (t : Task) : Z := snd (sort_key t).

(** [a] ranks strictly below [b]: a smaller score, or an equal score and
    a smaller priority. *)
Definition ranks_below (a b : Task) : Prop :=
  PyFloat.ltb (score a) (score b) = true
  \/ (PyFloat.eqb (score a) (score b) = true /\ prio a < prio b).

Definition comparable (t : Task) : Prop := PyFloat.is_nan (score t) = false.

(** A position on the line for every value that is not NaN; both zeros
    share one position. *)
Definition rank (x : PyFloat.float) : Z * Z * Z :=
  match x with
  | S754_nan => (0, 0, 0)
  | S754_infinity true => (-2, 0, 0)
  | S754_finite true m e => (-1, - e, - Zpos m)
  | S754_zero _ => (0, 0, 0)
  | S754_finite false m e => (1, e, Zpos m)
  | S754_infinity false => (2, 0, 0)
  end.

Definition lt3 (a b : Z * Z * Z) : Prop :=
  fst (fst a) < fst (fst b)
  \/ (fst (fst a) = fst (fst b)
      /\ (snd (fst a) < snd (fst b)
          \/ (snd (fst a) = snd (fst b) /\ snd a < snd b))).

(** The insertion sort taken from the last element of the list to the
    first: what [PySort.sort] computes on the reversed list. *)
Definition isort {A} (lt : A -> A -> bool) (l : list A) : list A :=
  fold_right (fun x acc => PySort.insert lt x acc) [] l.

(** [top] is a maximum of [l] for [lt], and the first one in [l]: what
    comes before it is strictly smaller, nothing behind it is greater. *)
Definition first_max {A} (lt : A -> A -> bool)
    (l l1 : list A) (top : A) (l2 : list A) : Prop :=
  l = (l1 ++ top :: l2)%list
  /\ (forall c, In c l1 -> lt c top = true)
  /\ (forall c, In c l2 -> lt top c = false).

(** [s] is in ascending order for [lt]: no element is smaller than one
    before it. *)
Definition ascending {A} (lt : A -> A -> bool) (s : list A) : Prop :=
  StronglySorted (fun a b => lt b a = false) s.

(** [e] and [y] are not told apart by [lt]. *)
Definition equivb {A} (lt : A -> A -> bool) (e y : A) : bool :=
  negb (lt e y) && negb (lt y e).

(** [new] is [old] with nothing changed but [state.available]. *)
Definition same_but_available (old new : Task) : Prop :=
  task_id new = task_id old
  /\ task_name new = task_name old
  /\ task_action new = task_action old
  /\ task_domain new = task_domain old
  /\ task_runtime new = task_runtime old
  /\ task_bounty new = task_bounty old
  /\ task_q_learning new = task_q_learning old
  /\ status (get_state new) = status (get_state old)
  /\ last_started_at (get_state new) = last_started_at (get_state old)
  /\ last_completed_at (get_state new) = last_completed_at (get_state old)
  /\ next_available_at (get_state new) = next_available_at (get_state old)
  /\ last_result (get_state new) = last_result (get_state old)
  /\ consecutive_failures (get_state new)
     = consecutive_failures (get_state old).

Definition has_id (tid : string) (t : Task) : bool :=
  PyStr.eqb_opt (task_id t) (Some tid).


(** [new] is the task [old] as far as its definition goes: everything but
    [state] is the same. *)
Definition same_definition (old new : Task) : Prop :=
  task_id new = task_id old
  /\ task_name new = task_name old
  /\ task_action new = task_action old
  /\ task_domain new = task_domain old
  /\ task_runtime new = task_runtime old
  /\ task_bounty new = task_bounty old
  /\ task_q_learning new = task_q_learning old.

(** A string of whitespace only. *)
Fixpoint all_space (s : string) : bool :=
  match s with
  | EmptyString => true
  | String c s' => PyStr.isspace c && all_space s'
  end.

(** [task] with another action. *)
Definition with_action (a : option string) (task : Task) : Task :=
  mkTask (task_id task) (task_name task) a (task_domain task)
         (task_runtime task) (task_bounty task) (task_q_learning task)
         (task_state task).

Section CycleVocabulary.

Context {DT : Datetime}.

(** The board that projects the store [saved], stamped with the instant
    [stamp]. *)
Definition board_of (stamp : Z) (saved : Data) : Board :=
  mkBoard (isoformat stamp) "closed" (map board_entry (get_tasks saved)).

(** The world a cycle that runs nothing leaves behind, started in [w] with
    the store [data]: three readings of the clock, the store refreshed at
    the second, the board stamped with the third. *)
Definition idle_world (w : World) (data : Data) : World :=
  let saved := refresh_at (clock w (S (ticks w))) data in
  mkWorld (clock w) (S (S (S (ticks w)))) (Some saved)
          (Some (board_of (clock w (S (S (ticks w)))) saved))
          (text_files w).

(** The task a cycle started in [w] saves for the task [t0] it ran, when
    the adapter returned [r] and left the world [w2]. *)
Definition settled_task (w : World) (t0 : Task) (r : TaskRunResult)
    (w2 : World) : Task :=
  refresh_task (clock w2 (S (S (ticks w2))))
    (mark_post_run_at (clock w2 (ticks w2))
       (mark_running (isoformat (clock w (S (ticks w)))) t0) r).

(** The store such a cycle saves: [t0] settled, the tasks before and after
    it refreshed. *)
Definition ran_store (w : World) (b0 : list Task) (t0 : Task)
    (a0 : list Task) (r : TaskRunResult) (w2 : World) : Data :=
  let t5 := clock w2 (S (S (ticks w2))) in
  mkData (Some (map (refresh_task t5) b0
                ++ settled_task w t0 r w2 :: map (refresh_task t5) a0)%list).

(** The world such a cycle leaves behind: four readings of the clock after
    the adapter's. *)
Definition ran_world (w : World) (b0 : list Task) (t0 : Task)
    (a0 : list Task) (r : TaskRunResult) (w2 : World) : World :=
  let saved := ran_store w b0 t0 a0 r w2 in
  mkWorld (clock w2) (S (S (S (S (ticks w2))))) (Some saved)
          (Some (board_of (clock w2 (S (S (S (ticks w2))))) saved))
          (text_files w2).

(** A task settled once for every event, in order; an event is the time
    of the call and the result handed over. *)
Definition settle_all (events : list (Z * TaskRunResult)) (task : Task)
  : Task :=
  fold_left (fun t e => mark_post_run_at (fst e) t (snd e)) events task.

End CycleVocabulary.

(* ===================================================================== *)
(** * Concrete stores *)
(* ===================================================================== *)

(** A task with a cooldown of 30 seconds, settled at 2024-11-03T10:30:00Z. *)
Definition cooldown30_task : Task :=
  mkTask (Some "t1") (Some "memory") (Some "memory_update") None
         (Some (mkRuntime (Some true)))
         (Some (mkBounty (Some (PyFloat.of_Z 5)) (Some 1) (Some 30)))
         None None.

(** Another task: it differs from [cooldown30_task] in identity, action
    and bounty, and agrees with it on [enabled], [status] and
    [next_available_at]. *)
Definition reload_task : Task :=
  mkTask (Some "t2") (Some "reload") (Some "reload_service") (Some "svc")
         (Some (mkRuntime (Some true)))
         (Some (mkBounty (Some (PyFloat.of_Z 9)) (Some 7) None))
         (Some (mkQLearning (Some "s") (Some "a") None))
         (Some (mkState None (Some false) None None None (Some "x") (Some 2))).

Definition frozen_world : World :=
  mkWorld (fun _ => 1730629800000000) 0 None None [].

(** Two tasks with the same id: the first is disabled, the second is
    available; a third task is available and ranks higher. *)
Definition dup_first : Task :=
  mkTask (Some "dup") (Some "first") (Some "reload_service") None
         (Some (mkRuntime (Some false)))
         (Some (mkBounty (Some (PyFloat.of_Z 1)) (Some 1) (Some 60)))
         None
         (Some (mkState (Some "success") (Some false) None None None None None)).

Definition dup_second : Task :=
  mkTask (Some "dup") (Some "second") (Some "memory_update") None
         None
         (Some (mkBounty (Some (PyFloat.of_Z 2)) (Some 1) None))
         None
         (Some (mkState None (Some true) None None None None None)).

Definition rich_task : Task :=
  mkTask (Some "rich") (Some "third") (Some "memory_update") None
         None
         (Some (mkBounty (Some (PyFloat.of_Z 100)) (Some 9) None))
         None
         (Some (mkState None (Some true) None None None None None)).

(** An available task with the given reward and priority and the weight
    1.0. *)
Definition ranked (id : string) (reward_ priority_ : Z) : Task :=
  mkTask (Some id) None (Some "memory_update") None None
         (Some (mkBounty (Some (PyFloat.of_Z reward_)) (Some priority_) None))
         (Some (mkQLearning None None (Some (PyFloat.of_Z 1))))
         (Some (mkState None (Some true) None None None None None)).

(** The service as the command line builds it. *)
Definition cli_service : BackgroundTaskService :=
  new_service (DT := Iso8601.datetime)
    "background_tasks.json" "shared/bounty_board.json" None None.

(** A clock that starts at 2024-11-03T10:30:00Z and advances by one second
    at every reading. *)
Definition ticking (k : nat) : Z := 1730629800000000 + Z.of_nat k * 1000000.

Definition world_with (l : list Task) : World :=
  mkWorld ticking 0 (Some (mkData (Some l))) None [].

(** A later task with the id of [dup_first]: its cooldown ended at 10:00,
    the file still says it is unavailable. *)
Definition dup_late : Task :=
  mkTask (Some "dup") (Some "late") (Some "memory_update") None
         None
         (Some (mkBounty (Some (PyFloat.of_Z 2)) (Some 1) (Some 60)))
         None
         (Some (mkState (Some "success") (Some false) None
                        (Some "2024-11-03T09:59:00+00:00")
                        (Some "2024-11-03T10:00:00+00:00")
                        (Some "done") (Some 0))).

(** A task whose action carries a leading blank. *)
Definition padded_task : Task :=
  mkTask (Some "m") None (Some " memory_update") None None None None None.

(** A task whose action is no key of the dispatcher. *)
Definition dance_task : Task :=
  mkTask (Some "d") None (Some "dance") None None
         (Some (mkBounty None None (Some 10))) None
         (Some (mkState (Some "failed") None None None None None (Some 3))).

(** A task that has never run, with a cooldown of one minute. *)
Definition t1_task : Task :=
  mkTask (Some "t1") None (Some "memory_update") None
         (Some (mkRuntime (Some true)))
         (Some (mkBounty (Some (PyFloat.of_Z 5)) (Some 1) (Some 60)))
         None None.



(** A failed and a successful result. *)
Definition failure : TaskRunResult := mkTaskRunResult false "no".
Definition success : TaskRunResult := mkTaskRunResult true "yes".

(* ===================================================================== *)
(** * Properties of the Python builtins *)
(* ===================================================================== *)

Lemma eqb_opt_eq (a b : option string) :
  PyStr.eqb_opt a b = true <-> a = b.
Proof.
  destruct a as [x|], b as [y|]; simpl; split; intro H;
    try discriminate; try reflexivity.
  - apply String.eqb_eq in H. now subst.
  - injection H as ->. apply String.eqb_refl.
Qed.

Lemma eqb_opt_neq (a b : option string) :
  PyStr.eqb_opt a b = false <-> a <> b.
Proof.
  rewrite <- eqb_opt_eq. destruct (PyStr.eqb_opt a b); split; congruence.
Qed.

Lemma truthy_Some (s : string) :
  PyStr.truthy (Some s) = true <-> s <> "".
Proof.
  simpl. rewrite negb_true_iff. apply String.eqb_neq.
Qed.

Lemma falsy_cases (o : option string) :
  PyStr.truthy o = false <-> o = None \/ o = Some "".
Proof.
  destruct o as [s|]; simpl.
  - rewrite negb_false_iff, String.eqb_eq. split.
    + intros ->. now right.
    + intros [H|H]; congruence.
  - split; auto.
Qed.

(* ===================================================================== *)
(** * Availability engine *)
(* ===================================================================== *)

Section AvailabilityProperties.

Context {DT : Datetime}.

Lemma available_factors (task : Task) (now : Z) :
  _available task now =
  available_of (enabled (get_runtime task)) (status (get_state task))
               (next_available_at (get_state task)) now.
Proof.
  unfold _available, available_of.
  destruct (get_or (enabled (get_runtime task)) true); simpl; [|reflexivity].
  destruct (PyStr.eqb_opt (status (get_state task)) (Some "running"));
    simpl; [reflexivity|].
  destruct (parse_iso_or_none (next_available_at (get_state task)));
    [|reflexivity].
  now destruct (Z.ltb now z).
Qed.

Lemma available_false_iff (task : Task) (now : Z) :
  _available task now = false <->
  enabled (get_runtime task) = Some false
  \/ status (get_state task) = Some "running"
  \/ exists next_at,
       parse_iso_or_none (next_available_at (get_state task)) = Some next_at
       /\ now < next_at.
Proof.
  rewrite available_factors. unfold available_of.
  rewrite !andb_false_iff, negb_false_iff, eqb_opt_eq.
  split.
  - intros [[H|H]|H].
    + left. destruct (enabled (get_runtime task)) as [[|]|];
        simpl in H; congruence.
    + right; left; exact H.
    + right; right.
      destruct (parse_iso_or_none (next_available_at (get_state task)))
        as [next_at|]; [|discriminate].
      exists next_at. split; [reflexivity|].
      apply negb_false_iff in H. now apply Z.ltb_lt.
  - intros [H|[H|[next_at [H Hlt]]]].
    + left; left. now rewrite H.
    + left; right; exact H.
    + right. rewrite H. apply negb_false_iff. now apply Z.ltb_lt.
Qed.

(** State fields of a settled task that [_available] reads. *)
Lemma mark_post_run_at_runtime (now : Z) (task : Task) (r : TaskRunResult) :
  get_runtime (mark_post_run_at now task r) = get_runtime task.
Proof. reflexivity. Qed.

Lemma mark_post_run_at_status (now : Z) (task : Task) (r : TaskRunResult) :
  status (get_state (mark_post_run_at now task r))
  = Some (if ok r then "success" else "failed").
Proof. reflexivity. Qed.

Lemma mark_post_run_at_next (now : Z) (task : Task) (r : TaskRunResult) :
  next_available_at (get_state (mark_post_run_at now task r))
  = if Z.ltb 0 (get_or (cooldown_sec (get_bounty task)) 0)
    then Some (isoformat
                 (now + timedelta_seconds
                          (get_or (cooldown_sec (get_bounty task)) 0)))
    else None.
Proof. reflexivity. Qed.


(** ** Refresh *)

Lemma refresh_task_inputs (now : Z) (task : Task) :
  get_runtime (refresh_task now task) = get_runtime task
  /\ status (get_state (refresh_task now task)) = status (get_state task)
  /\ next_available_at (get_state (refresh_task now task))
     = next_available_at (get_state task).
Proof. repeat split. Qed.

Lemma available_refresh_task (t0 now : Z) (task : Task) :
  _available (refresh_task t0 task) now = _available task now.
Proof.
  rewrite !available_factors.
  destruct (refresh_task_inputs t0 task) as (-> & -> & ->). reflexivity.
Qed.

(** A later refresh overrides an earlier one. *)
Lemma refresh_task_absorb (t1 t2 : Z) (task : Task) :
  refresh_task t2 (refresh_task t1 task) = refresh_task t2 task.
Proof.
  unfold refresh_task at 1.
  change (set_state (get_state (refresh_task t1 task)) (refresh_task t1 task))
    with (refresh_task t1 task).
  rewrite available_refresh_task. reflexivity.
Qed.

Lemma get_tasks_set_tasks (l : list Task) (data : Data) :
  tasks data <> None -> get_tasks (set_tasks l data) = l.
Proof. unfold set_tasks, get_tasks. destruct (tasks data); easy. Qed.

Lemma refresh_at_absorb (t1 t2 : Z) (data : Data) :
  refresh_at t2 (refresh_at t1 data) = refresh_at t2 data.
Proof.
  unfold refresh_at, set_tasks, get_tasks.
  destruct data as [[l|]]; simpl; [|reflexivity].
  rewrite map_map. apply f_equal. apply f_equal.
  apply map_ext. intro t. apply refresh_task_absorb.
Qed.

(** C7. Refreshing twice at the same time gives the store that refreshing
    once gives, on the pure step and on the effectful function when the
    clock shows the same reading twice; and [_available] is a function of
    [runtime.enabled], [state.status], [state.next_available_at] and the
    time alone: two tasks that agree on these three fields get the same
    answer. *)
Theorem refresh_idempotent_available_pure :
  (forall now data, refresh_at now (refresh_at now data) = refresh_at now data)
  /\ (forall data w,
        clock w (S (ticks w)) = clock w (ticks w) ->
        fst ((d <- _refresh_availability data ;; _refresh_availability d) w)
        = fst (_refresh_availability data w))
  /\ (forall task now,
        _available task now
        = available_of (enabled (get_runtime task)) (status (get_state task))
                       (next_available_at (get_state task)) now)
  /\ (forall a b now,
        enabled (get_runtime a) = enabled (get_runtime b) ->
        status (get_state a) = status (get_state b) ->
        next_available_at (get_state a) = next_available_at (get_state b) ->
        _available a now = _available b now).
Proof.
  split; [intros; apply refresh_at_absorb|].
  split.
  - intros data w H. unfold _refresh_availability, bind, utc_now, ret. simpl.
    rewrite H. now rewrite refresh_at_absorb.
  - split; [apply available_factors|].
    intros a b now H1 H2 H3. rewrite !available_factors.
    now rewrite H1, H2, H3.
Qed.

(** C8. A [next_available_at] that is absent, empty or rejected by the
    parser parses to nothing, and the task is then gated by [enabled]
    and [status] alone: the cooldown imposes no constraint. *)
Theorem malformed_timestamp_is_no_constraint (v : option string) :
  (v = None \/ v = Some "" \/ exists s, v = Some s /\ fromisoformat s = None) ->
  parse_iso_or_none v = None
  /\ forall task now,
       next_available_at (get_state task) = v ->
       _available task now
       = get_or (enabled (get_runtime task)) true
         && negb (PyStr.eqb_opt (status (get_state task)) (Some "running")).
Proof.
  intro H.
  assert (Hp : parse_iso_or_none v = None).
  { destruct H as [->|[->|[s [-> Hs]]]]; try reflexivity.
    unfold parse_iso_or_none. destruct (PyStr.truthy (Some s)); simpl; auto. }
  split; [exact Hp|].
  intros task now Hv. rewrite available_factors. unfold available_of.
  rewrite Hv, Hp. now rewrite andb_true_r.
Qed.

(* ===================================================================== *)
(** * Settle *)
(* ===================================================================== *)


End AvailabilityProperties.


Lemma refresh_idempotent_available_pure_witness :
  let DT := Iso8601.datetime in
  fst ((d <- _refresh_availability (mkData (Some [reload_task])) ;;
        _refresh_availability d) frozen_world)
  = fst (_refresh_availability (mkData (Some [reload_task])) frozen_world)
  /\ _available cooldown30_task 0 = _available reload_task 0.
Proof.
  intro DT.
  destruct (refresh_idempotent_available_pure (DT := DT)) as (_ & H2 & _ & H4).
  split.
  - apply H2. reflexivity.
  - apply H4; reflexivity.
Defined.

Lemma malformed_timestamp_is_no_constraint_witness :
  let DT := Iso8601.datetime in
  parse_iso_or_none (Some "next tuesday") = None.
Proof.
  intro DT.
  apply (malformed_timestamp_is_no_constraint (DT := DT) (Some "next tuesday")).
  right; right. exists "next tuesday". split; [reflexivity|].
  vm_compute. reflexivity.
Defined.

(* ===================================================================== *)
(** * Selection policy: explicit override *)
(* ===================================================================== *)

Lemma state_available_true (t : Task) :
  state_available t = true <-> available (get_state t) = Some true.
Proof.
  unfold state_available.
  destruct (available (get_state t)) as [[|]|]; simpl; split; congruence.
Qed.

(** C3. With a non-empty preferred id, selection returns that id exactly
    when some task carries it and has [state.available] true; otherwise it
    returns nothing, whatever other tasks are available. *)
Theorem preferred_id_selection (data : Data) (p : string) :
  p <> "" ->
  let eligible :=
    exists t, In t (get_tasks data) /\ task_id t = Some p
              /\ available (get_state t) = Some true in
  (_pick_task_id data (Some p) = Some p <-> eligible)
  /\ (~ eligible -> _pick_task_id data (Some p) = None)
  /\ (_pick_task_id data (Some p) = Some p
      \/ _pick_task_id data (Some p) = None).
Proof.
  intros Hp eligible. subst eligible.
  unfold _pick_task_id.
  apply truthy_Some in Hp. rewrite Hp.
  destruct (existsb _ (get_tasks data)) eqn:E.
  - apply existsb_exists in E. destruct E as [t [Hin Ht]].
    apply andb_true_iff in Ht. destruct Ht as [Hid Hav].
    apply eqb_opt_eq in Hid. apply state_available_true in Hav.
    assert (Hex : exists t, In t (get_tasks data) /\ task_id t = Some p
                            /\ available (get_state t) = Some true)
      by (exists t; auto).
    split; [split; auto|]. split; [intro Hn; contradiction|]. now left.
  - assert (Hno : ~ exists t, In t (get_tasks data) /\ task_id t = Some p
                              /\ available (get_state t) = Some true).
    { intros [t [Hin [Hid Hav]]].
      assert (Ht : existsb (fun t => PyStr.eqb_opt (task_id t) (Some p)
                                     && state_available t) (get_tasks data)
                   = true).
      { apply existsb_exists. exists t. split; [exact Hin|].
        apply andb_true_iff. split.
        - now apply eqb_opt_eq.
        - now apply state_available_true. }
      congruence. }
    split; [split; [discriminate|intro; contradiction]|].
    split; [reflexivity|]. now right.
Qed.

Lemma preferred_id_selection_witness :
  _pick_task_id (mkData (Some [dup_first; dup_second; rich_task])) (Some "dup")
  = Some "dup"
  /\ _pick_task_id (mkData (Some [dup_first; rich_task])) (Some "dup") = None.
Proof.
  split.
  - apply (preferred_id_selection
             (mkData (Some [dup_first; dup_second; rich_task])) "dup");
      [discriminate|].
    exists dup_second. repeat split. simpl. auto.
  - apply (preferred_id_selection (mkData (Some [dup_first; rich_task])) "dup");
      [discriminate|].
    intros [t [Hin [Hid Hav]]]. simpl in Hin.
    destruct Hin as [<-|[<-|[]]]; discriminate.
Defined.

(* ===================================================================== *)
(** * Order of binary64 values and of the ranking keys *)
(* ===================================================================== *)

Ltac float_cases :=
  repeat match goal with
         | |- context [Pos.compare_cont Eq ?m ?n] =>
             change (Pos.compare_cont Eq m n) with (Pos.compare m n);
             destruct (Pos.compare_spec m n)
         | |- context [Z.compare ?m ?n] => destruct (Z.compare_spec m n)
         end.

Lemma ltb_rank (a b : PyFloat.float) :
  PyFloat.is_nan a = false -> PyFloat.is_nan b = false ->
  (PyFloat.ltb a b = true <-> lt3 (rank a) (rank b)).
Proof.
  intros Ha Hb. unfold PyFloat.ltb, SFltb, SFcompare, lt3.
  destruct a as [sa|sa| |sa ma ea], b as [sb|sb| |sb mb eb];
    try discriminate; try destruct sa; try destruct sb; simpl;
    float_cases; simpl; split; intro Hx; try reflexivity; try discriminate;
    try lia.
Qed.

Lemma eqb_rank (a b : PyFloat.float) :
  PyFloat.is_nan a = false -> PyFloat.is_nan b = false ->
  (PyFloat.eqb a b = true <-> rank a = rank b).
Proof.
  intros Ha Hb. unfold PyFloat.eqb, SFeqb, SFcompare.
  destruct a as [sa|sa| |sa ma ea], b as [sb|sb| |sb mb eb];
    try discriminate; try destruct sa; try destruct sb; simpl;
    float_cases; simpl; split; intro Hx; try reflexivity; try discriminate;
    try (injection Hx; intros; lia); try (f_equal; try f_equal; lia).
Qed.

Lemma key_lt_ranks_below (a b : Task) :
  key_lt a b = true <-> ranks_below a b.
Proof.
  unfold key_lt, tuple_lt, ranks_below. fold (score a) (score b) (prio a) (prio b).
  destruct (PyFloat.eqb (score a) (score b)) eqn:E.
  - rewrite Z.ltb_lt. split; [intro; right; auto|].
    intros [H|[_ H]]; [|exact H].
    unfold PyFloat.eqb, SFeqb in E. unfold PyFloat.ltb, SFltb in H.
    destruct (SFcompare (score a) (score b)) as [[| |]|]; discriminate.
  - split; [intro; left; auto|]. intros [H|[H _]]; [exact H|discriminate].
Qed.

Lemma ranks_below_rank (a b : Task) :
  comparable a -> comparable b ->
  (ranks_below a b <->
   lt3 (rank (score a)) (rank (score b))
   \/ (rank (score a) = rank (score b) /\ prio a < prio b)).
Proof.
  intros Ha Hb. unfold ranks_below.
  now rewrite (ltb_rank _ _ Ha Hb), (eqb_rank _ _ Ha Hb).
Qed.

Lemma key_lt_irrefl (a : Task) : comparable a -> key_lt a a = false.
Proof.
  intro Ha. destruct (key_lt a a) eqn:E; [|reflexivity].
  apply key_lt_ranks_below in E. apply (ranks_below_rank a a Ha Ha) in E.
  unfold lt3 in E. lia.
Qed.

Lemma key_lt_trans (a b c : Task) :
  comparable a -> comparable b -> comparable c ->
  key_lt a b = true -> key_lt b c = true -> key_lt a c = true.
Proof.
  intros Ha Hb Hc Hab Hbc.
  apply key_lt_ranks_below in Hab, Hbc. apply key_lt_ranks_below.
  apply (ranks_below_rank a b Ha Hb) in Hab.
  apply (ranks_below_rank b c Hb Hc) in Hbc.
  apply (ranks_below_rank a c Ha Hc).
  unfold lt3 in *.
  destruct (rank (score a)) as [[a1 a2] a3], (rank (score b)) as [[b1 b2] b3],
           (rank (score c)) as [[c1 c2] c3]; simpl in *.
  destruct Hab as [Hab|[Hab ?]], Hbc as [Hbc|[Hbc ?]];
    try (injection Hab as -> -> ->); try (injection Hbc as -> -> ->);
    try (left; lia); try (right; split; [reflexivity|lia]).
Qed.

Lemma key_lt_negtrans (a b c : Task) :
  comparable a -> comparable b -> comparable c ->
  key_lt a c = true -> key_lt a b = true \/ key_lt b c = true.
Proof.
  intros Ha Hb Hc Hac.
  rewrite !key_lt_ranks_below in *.
  rewrite (ranks_below_rank a b Ha Hb), (ranks_below_rank b c Hb Hc).
  apply (ranks_below_rank a c Ha Hc) in Hac.
  unfold lt3 in *.
  destruct (rank (score a)) as [[a1 a2] a3], (rank (score b)) as [[b1 b2] b3],
           (rank (score c)) as [[c1 c2] c3]; simpl in *.
  assert (Hdec : (a1 = b1 /\ a2 = b2 /\ a3 = b3) \/ (a1, a2, a3) <> (b1, b2, b3)).
  { destruct (Z.eq_dec a1 b1), (Z.eq_dec a2 b2), (Z.eq_dec a3 b3);
      try (left; lia); right; intro Hx; injection Hx; intros; lia. }
  assert (Hdec' : (b1 = c1 /\ b2 = c2 /\ b3 = c3) \/ (b1, b2, b3) <> (c1, c2, c3)).
  { destruct (Z.eq_dec b1 c1), (Z.eq_dec b2 c2), (Z.eq_dec b3 c3);
      try (left; lia); right; intro Hx; injection Hx; intros; lia. }
  destruct Hac as [Hac|[Hac Hp]].
  - destruct Hdec as [(-> & -> & ->)|Hne]; [right; left; lia|].
    assert (a1 < b1 \/ a1 = b1 /\ (a2 < b2 \/ a2 = b2 /\ a3 < b3)
            \/ b1 < c1 \/ b1 = c1 /\ (b2 < c2 \/ b2 = c2 /\ b3 < c3)) by lia.
    tauto.
  - injection Hac as -> -> ->.
    destruct Hdec' as [(-> & -> & ->)|Hne].
    + destruct (Z.lt_ge_cases (prio a) (prio b)).
      * left; right; split; [reflexivity|lia].
      * right; right; split; [reflexivity|lia].
    + assert (Hx : b1 < c1 \/ b1 = c1 /\ (b2 < c2 \/ b2 = c2 /\ b3 < c3)
                   \/ c1 < b1 \/ c1 = b1 /\ (c2 < b2 \/ c2 = b2 /\ c3 < b3)).
      { destruct (Z.eq_dec b1 c1), (Z.eq_dec b2 c2), (Z.eq_dec b3 c3);
          try lia. exfalso. apply Hne. congruence. }
      destruct Hx as [Hx|[Hx|Hx]]; [right; left; lia|right; left; lia|].
      left; left; lia.
Qed.

(* ===================================================================== *)
(** * The head of a list sorted in reverse *)
(* ===================================================================== *)

Section SortHead.

Local Open Scope list_scope.

Context {A : Type}.
Variable lt : A -> A -> bool.
Variable P : A -> Prop.

Hypothesis lt_irrefl : forall a, P a -> lt a a = false.
Hypothesis lt_trans : forall a b c, P a -> P b -> P c ->
  lt a b = true -> lt b c = true -> lt a c = true.
Hypothesis lt_negtrans : forall a b c, P a -> P b -> P c ->
  lt a c = true -> lt a b = true \/ lt b c = true.

Lemma sort_rev (l : list A) : PySort.sort lt (rev l) = isort lt l.
Proof.
  unfold PySort.sort, isort.
  rewrite <- (rev_involutive l) at 2.
  now rewrite fold_left_rev_right.
Qed.

Lemma insert_In (x y : A) (l : list A) :
  In y (PySort.insert lt x l) <-> y = x \/ In y l.
Proof.
  induction l as [|z l IH]; simpl.
  - intuition.
  - destruct (lt x z); simpl; [intuition|]. rewrite IH. intuition.
Qed.

Lemma isort_In (y : A) (l : list A) : In y (isort lt l) <-> In y l.
Proof.
  induction l as [|x l IH]; simpl; [reflexivity|].
  rewrite insert_In, IH. intuition.
Qed.

Lemma insert_below_last (x t : A) (s : list A) :
  lt x t = true ->
  exists s', PySort.insert lt x (s ++ [t]) = s' ++ [t].
Proof.
  intro Hxt. induction s as [|y s IH]; simpl.
  - rewrite Hxt. now exists [x].
  - destruct (lt x y).
    + now exists (x :: y :: s).
    + destruct IH as [s' ->]. now exists (y :: s').
Qed.

Lemma insert_above_all (x : A) (s : list A) :
  (forall y, In y s -> lt x y = false) ->
  PySort.insert lt x s = s ++ [x].
Proof.
  induction s as [|y s IH]; simpl; intro H; [reflexivity|].
  rewrite (H y (or_introl eq_refl)). f_equal. apply IH. auto.
Qed.

Lemma first_max_above (l l1 l2 : list A) (top : A) :
  Forall P l -> first_max lt l l1 top l2 ->
  forall c, In c l -> lt top c = false.
Proof.
  intros HP (-> & H1 & H2) c Hc.
  rewrite Forall_forall in HP.
  assert (Ptop : P top) by (apply HP, in_elt).
  apply in_app_or in Hc. destruct Hc as [Hc|[<-|Hc]].
  - destruct (lt top c) eqn:E; [|reflexivity].
    assert (Pc : P c) by (apply HP, in_or_app; now left).
    pose proof (lt_trans top c top Ptop Pc Ptop E (H1 c Hc)) as Hcyc.
    rewrite (lt_irrefl top Ptop) in Hcyc. discriminate.
  - now apply lt_irrefl.
  - now apply H2.
Qed.

Lemma isort_last (l : list A) :
  Forall P l -> l <> [] ->
  exists s l1 top l2, isort lt l = s ++ [top] /\ first_max lt l l1 top l2.
Proof.
  induction l as [|x l IH]; intros HP Hne; [contradiction|].
  inversion HP as [|? ? Px HPl]; subst.
  destruct l as [|y l'].
  - exists [], [], x, []. repeat split; intros c [].
  - destruct (IH HPl ltac:(discriminate)) as (s & l1 & t & l2 & Hs & Hmax).
    pose proof (first_max_above _ _ _ _ HPl Hmax) as Habove.
    assert (Pt : P t).
    { rewrite Forall_forall in HPl. apply HPl.
      destruct Hmax as (-> & _). apply in_elt. }
    change (isort lt (x :: y :: l')) with (PySort.insert lt x (isort lt (y :: l'))).
    rewrite Hs.
    destruct (lt x t) eqn:Hxt.
    + destruct (insert_below_last x t s Hxt) as [s' ->].
      exists s', (x :: l1), t, l2.
      destruct Hmax as (Hl & H1 & H2).
      split; [reflexivity|]. split; [simpl; now rewrite Hl|].
      split; [|exact H2].
      intros c [<-|Hc]; auto.
    + assert (Hall : forall c, In c (y :: l') -> lt x c = false).
      { intros c Hc. destruct (lt x c) eqn:E; [|reflexivity].
        assert (Pc : P c) by (rewrite Forall_forall in HPl; now apply HPl).
        destruct (lt_negtrans x t c Px Pt Pc E) as [H|H]; [congruence|].
        rewrite (Habove c Hc) in H. discriminate. }
      rewrite <- Hs, insert_above_all.
      * exists (isort lt (y :: l')), [], x, (y :: l').
        split; [reflexivity|]. split; [reflexivity|].
        split; [intros c []|exact Hall].
      * intros c Hc. apply Hall. now apply isort_In.
Qed.

(** ** [sort] is a stable sort *)

Lemma insert_ascending (x : A) (s : list A) :
  P x -> Forall P s -> ascending lt s -> ascending lt (PySort.insert lt x s).
Proof.
  intros Px HP Hs. induction Hs as [|y s Hs IH Hy]; simpl.
  - repeat constructor.
  - inversion HP as [|? ? Py HPs]; subst.
    destruct (lt x y) eqn:Exy.
    + constructor; [now constructor|].
      constructor.
      * destruct (lt y x) eqn:E; [|reflexivity].
        pose proof (lt_trans x y x Px Py Px Exy E) as Hc.
        rewrite (lt_irrefl x Px) in Hc. discriminate.
      * rewrite Forall_forall in *. intros z Hz.
        destruct (lt z x) eqn:E; [|reflexivity].
        pose proof (lt_trans z x y (HPs z Hz) Px Py E Exy) as Hc.
        rewrite (Hy z Hz) in Hc. discriminate.
    + constructor; [now apply IH|].
      rewrite Forall_forall in *. intros z Hz.
      apply insert_In in Hz. destruct Hz as [->|Hz]; auto.
Qed.

Lemma isort_ascending (l : list A) : Forall P l -> ascending lt (isort lt l).
Proof.
  induction l as [|x l IH]; intro HP; [constructor|].
  inversion HP as [|? ? Px HPl]; subst.
  change (ascending lt (PySort.insert lt x (isort lt l))).
  apply insert_ascending; [exact Px| |exact (IH HPl)].
  apply Forall_forall. intros z Hz. apply (proj1 (isort_In z l)) in Hz.
  rewrite Forall_forall in HPl. now apply HPl.
Qed.

Lemma insert_permutation (x : A) (s : list A) :
  Permutation (PySort.insert lt x s) (x :: s).
Proof.
  induction s as [|y s IH]; simpl; [reflexivity|].
  destruct (lt x y); [reflexivity|].
  rewrite IH. apply perm_swap.
Qed.

Lemma isort_permutation (l : list A) : Permutation (isort lt l) l.
Proof.
  induction l as [|x l IH]; simpl; [reflexivity|].
  rewrite insert_permutation. now constructor.
Qed.

(** Behind [x], an ascending list holds nothing equivalent to [e] once
    [x] is equivalent to [e] and smaller than the head. *)
Lemma filter_equivb_above (e x y : A) (s : list A) :
  P e -> P x -> Forall P (y :: s) -> ascending lt (y :: s) ->
  equivb lt e x = true -> lt x y = true ->
  filter (equivb lt e) (y :: s) = [].
Proof.
  intros Pe Px HP Hs Hex Hxy.
  apply andb_true_iff in Hex. destruct Hex as [Hex1 Hex2].
  apply negb_true_iff in Hex1, Hex2.
  assert (Hall : forall z, In z (y :: s) -> lt e z = true).
  { intros z Hz. rewrite Forall_forall in HP.
    assert (Hxz : lt x z = true).
    { destruct Hz as [<-|Hz]; [exact Hxy|].
      inversion Hs as [|? ? _ Hy]; subst. rewrite Forall_forall in Hy.
      destruct (lt_negtrans x z y Px (HP z (or_intror Hz))
                  (HP y (or_introl eq_refl)) Hxy) as [H|H]; [exact H|].
      rewrite (Hy z Hz) in H. discriminate. }
    destruct (lt_negtrans x e z Px Pe (HP z Hz) Hxz) as [H|H];
      [congruence|exact H]. }
  clear Hs HP Hxy. induction (y :: s) as [|z t IH]; [reflexivity|]. simpl.
  unfold equivb at 1. rewrite (Hall z (or_introl eq_refl)). simpl.
  apply IH. intros z' Hz'. apply Hall. now right.
Qed.

Lemma filter_equivb_insert (e x : A) (s : list A) :
  P e -> P x -> Forall P s -> ascending lt s ->
  filter (equivb lt e) (PySort.insert lt x s)
  = if equivb lt e x then filter (equivb lt e) s ++ [x] else filter (equivb lt e) s.
Proof.
  intros Pe Px HP Hs. induction s as [|y s IH]; simpl.
  - now destruct (equivb lt e x).
  - inversion HP as [|? ? Py HPs]; subst.
    inversion Hs as [|? ? Hs' Hy]; subst.
    destruct (lt x y) eqn:Exy.
    + cbn [filter]. destruct (equivb lt e x) eqn:Eex; [|reflexivity].
      change (x :: (if equivb lt e y then y :: filter (equivb lt e) s
                    else filter (equivb lt e) s))
        with (x :: filter (equivb lt e) (y :: s)).
      change (if equivb lt e y then y :: filter (equivb lt e) s
              else filter (equivb lt e) s)
        with (filter (equivb lt e) (y :: s)).
      now rewrite (filter_equivb_above e x y s Pe Px HP Hs Eex Exy).
    + cbn [filter]. rewrite (IH HPs Hs').
      destruct (equivb lt e y), (equivb lt e x); reflexivity.
Qed.

Lemma isort_stable (e : A) (l : list A) :
  P e -> Forall P l ->
  filter (equivb lt e) (isort lt l) = rev (filter (equivb lt e) l).
Proof.
  intros Pe. induction l as [|x l IH]; intro HP; [reflexivity|].
  inversion HP as [|? ? Px HPl]; subst. simpl.
  rewrite filter_equivb_insert; auto.
  - rewrite (IH HPl). now destruct (equivb lt e x).
  - apply Forall_forall. intros z Hz. apply (proj1 (isort_In z l)) in Hz.
    rewrite Forall_forall in HPl. now apply HPl.
  - now apply isort_ascending.
Qed.

(** [PySort.sort] returns the stable ascending arrangement of its
    argument: a permutation, ascending for [lt], in which the elements
    equivalent to any given one keep their order.  Such an arrangement is
    unique, so every stable sort that only uses [lt] returns it. *)
Lemma sort_stable_ascending (l : list A) :
  Forall P l ->
  Permutation (PySort.sort lt l) l
  /\ ascending lt (PySort.sort lt l)
  /\ forall e, P e ->
       filter (equivb lt e) (PySort.sort lt l) = filter (equivb lt e) l.
Proof.
  intro HP.
  assert (Hs : PySort.sort lt l = isort lt (rev l))
    by (rewrite <- sort_rev; now rewrite rev_involutive).
  rewrite Hs.
  assert (HPr : Forall P (rev l)).
  { apply Forall_forall. intros z Hz. apply in_rev in Hz.
    rewrite Forall_forall in HP. now apply HP. }
  split; [|split].
  - rewrite isort_permutation. symmetry. apply Permutation_rev.
  - now apply isort_ascending.
  - intros e Pe. rewrite (isort_stable e (rev l) Pe HPr).
    now rewrite filter_rev, rev_involutive.
Qed.

(** [l.sort(reverse=True); l[0]] is the maximum that comes first in the
    original order. *)
Lemma sort_reverse_head (l : list A) :
  Forall P l -> l <> [] ->
  exists l1 top l2,
    hd_error (PySort.sort_reverse lt l) = Some top /\ first_max lt l l1 top l2.
Proof.
  intros HP Hne.
  destruct (isort_last l HP Hne) as (s & l1 & top & l2 & Hs & Hmax).
  exists l1, top, l2. split; [|exact Hmax].
  unfold PySort.sort_reverse. rewrite sort_rev, Hs, rev_unit. reflexivity.
Qed.

End SortHead.

(** The ranking keys of tasks without NaN score are ordered by [key_lt],
    so sorting the candidates is sorting in the sense above. *)
Lemma ranking_sort_stable (l : list Task) :
  Forall comparable l ->
  Permutation (PySort.sort key_lt l) l
  /\ ascending key_lt (PySort.sort key_lt l)
  /\ forall e, comparable e ->
       filter (equivb key_lt e) (PySort.sort key_lt l)
       = filter (equivb key_lt e) l.
Proof.
  apply (sort_stable_ascending key_lt comparable key_lt_irrefl key_lt_trans
           key_lt_negtrans).
Qed.


(* ===================================================================== *)
(** * Selection policy: greedy ranking *)
(* ===================================================================== *)


Example primary_key_wins :
  _pick_task_id (mkData (Some [ranked "A" 10 1; ranked "B" 5 5])) None
  = Some "A".
Proof. reflexivity. Qed.

Example tie_break_applies :
  _pick_task_id (mkData (Some [ranked "A" 10 1; ranked "C" 10 5])) None
  = Some "C".
Proof. reflexivity. Qed.

Example equal_keys_keep_list_order :
  _pick_task_id (mkData (Some [ranked "B" 5 5; ranked "A" 10 1;
                               ranked "D" 10 1])) (Some "")
  = Some "A".
Proof. reflexivity. Qed.


(* ===================================================================== *)
(** * The run cycle *)
(* ===================================================================== *)

Section CycleProperties.

Context {DT : Datetime}.

Lemma refresh_task_same_but_available (now : Z) (task : Task) :
  same_but_available task (refresh_task now task)
  /\ available (get_state (refresh_task now task))
     = Some (_available task now).
Proof. repeat split. Qed.

Lemma state_available_refresh_task (now : Z) (task : Task) :
  state_available (refresh_task now task) = _available task now.
Proof. reflexivity. Qed.

Lemma get_tasks_refresh_at (now : Z) (data : Data) :
  get_tasks (refresh_at now data) = map (refresh_task now) (get_tasks data).
Proof. destruct data as [[l|]]; reflexivity. Qed.

Lemma pick_none_when_unavailable (data : Data) (pref : option string) :
  (forall t, In t (get_tasks data) -> state_available t = false) ->
  _pick_task_id data pref = None.
Proof.
  intro H. unfold _pick_task_id.
  destruct (PyStr.truthy pref).
  - destruct (existsb _ (get_tasks data)) eqn:E; [|reflexivity].
    apply existsb_exists in E. destruct E as [t [Hin Ht]].
    apply andb_true_iff in Ht. rewrite (H t Hin) in Ht.
    destruct Ht; discriminate.
  - destruct (filter state_available (get_tasks data)) as [|c cs] eqn:E;
      [reflexivity|].
    assert (Hc : In c (filter state_available (get_tasks data)))
      by (rewrite E; now left).
    apply filter_In in Hc. destruct Hc as [Hc1 Hc2].
    rewrite (H c Hc1) in Hc2. discriminate.
Qed.

(** ** Finding the selected task *)

Lemma split_first_spec {A} (p : A -> bool) (l b a : list A) (x : A) :
  split_first p l = Some (b, x, a) ->
  l = (b ++ x :: a)%list /\ p x = true /\ forall y, In y b -> p y = false.
Proof.
  revert b. induction l as [|y l IH]; intros b H; simpl in H; [discriminate|].
  destruct (p y) eqn:Ey.
  - injection H as <- <- <-. repeat split; auto. intros ? [].
  - destruct (split_first p l) as [[[b' x'] a']|]; [|discriminate].
    injection H as <- <- <-.
    destruct (IH b' eq_refl) as (-> & Hx & Hb).
    repeat split; auto. intros z [<-|Hz]; auto.
Qed.

Lemma split_first_exists {A} (p : A -> bool) (l : list A) (x : A) :
  In x l -> p x = true -> exists b y a, split_first p l = Some (b, y, a).
Proof.
  induction l as [|z l IH]; intros Hin Hp; [contradiction|]. simpl.
  destruct (p z) eqn:Ez; [now exists [], z, l|].
  destruct Hin as [->|Hin]; [congruence|].
  destruct (IH Hin Hp) as (b & y & a & ->). now exists (z :: b), y, a.
Qed.

Lemma split_first_map {A} (p : A -> bool) (f : A -> A) (l : list A) :
  (forall x, p (f x) = p x) ->
  split_first p (map f l)
  = match split_first p l with
    | Some (b, x, a) => Some (map f b, f x, map f a)
    | None => None
    end.
Proof.
  intro H. induction l as [|y l IH]; simpl; [reflexivity|].
  rewrite H. destruct (p y); [reflexivity|].
  rewrite IH. now destruct (split_first p l) as [[[b x] a]|].
Qed.

Lemma sort_reverse_In {A} (lt : A -> A -> bool) (y : A) (l : list A) :
  In y (PySort.sort_reverse lt l) -> In y l.
Proof.
  unfold PySort.sort_reverse. rewrite sort_rev, <- in_rev.
  apply isort_In.
Qed.

(** An id that selection returns is the id of a task of the store. *)
Lemma pick_id_in_tasks (data : Data) (pref : option string) (tid : string) :
  _pick_task_id data pref = Some tid ->
  exists t, In t (get_tasks data) /\ task_id t = Some tid.
Proof.
  unfold _pick_task_id. destruct (PyStr.truthy pref).
  - destruct (existsb _ (get_tasks data)) eqn:E; [|discriminate].
    intros ->. apply existsb_exists in E. destruct E as [t [Hin Ht]].
    apply andb_true_iff in Ht. destruct Ht as [Ht _].
    apply eqb_opt_eq in Ht. now exists t.
  - destruct (filter state_available (get_tasks data)) as [|c cs] eqn:E;
      [discriminate|].
    destruct (PySort.sort_reverse key_lt (c :: cs)) as [|top rest] eqn:Es;
      [discriminate|].
    intro Hid. exists top. split; [|exact Hid].
    assert (Hin : In top (c :: cs)).
    { apply (sort_reverse_In key_lt). rewrite Es. now left. }
    rewrite <- E in Hin. now apply filter_In in Hin.
Qed.

Lemma refresh_at_set_tasks (now : Z) (l : list Task) (data : Data) :
  tasks data <> None ->
  refresh_at now (set_tasks l data) = mkData (Some (map (refresh_task now) l)).
Proof. destruct data as [[l0|]]; [reflexivity|]. intro H. now elim H. Qed.

(** The cycle that runs a task: the first task of the store that bears
    the selected id is marked as running and dispatched; if the adapter
    raises, so does the cycle; otherwise that task is settled, and the
    store is refreshed, published and saved. *)
Lemma run_once_ran (self : BackgroundTaskService) (pref : option string)
    (w : World) (data : Data) (tid : string) (b0 a0 : list Task) (t0 : Task) :
  task_store w = Some data ->
  _pick_task_id (refresh_at (clock w (ticks w)) data) pref = Some tid ->
  tid <> "" ->
  split_first (has_id tid) (get_tasks data) = Some (b0, t0, a0) ->
  let running := mark_running (isoformat (clock w (S (ticks w)))) t0 in
  run_once self pref w
  = match _execute_action self running (tick (tick w)) with
    | (Raise e, w2) => (Raise e, w2)
    | (Ok r, w2) =>
        let t3 := clock w2 (ticks w2) in
        let t5 := clock w2 (S (S (ticks w2))) in
        let t6 := clock w2 (S (S (S (ticks w2)))) in
        let saved :=
          mkData (Some (map (refresh_task t5) b0
                        ++ refresh_task t5 (mark_post_run_at t3 running r)
                           :: map (refresh_task t5) a0)%list) in
        (Ok (Ran (Some tid) (ok r) (details r)),
         mkWorld (clock w2) (S (S (S (S (ticks w2))))) (Some saved)
                 (Some (mkBoard (isoformat t6) "closed"
                                (map board_entry (get_tasks saved))))
                 (text_files w2))
    end.
Proof.
  intros Hstore Hpick Hne Hsplit running.
  assert (Htasks : exists l, tasks data = Some l).
  { destruct data as [[l|]]; [now exists l|]. discriminate. }
  destruct Htasks as [l Hl].
  unfold run_once, bind at 1, _load. rewrite Hstore.
  unfold bind at 1, _refresh_availability at 1, bind at 1, utc_now at 1, ret at 1.
  rewrite Hpick. apply truthy_Some in Hne. rewrite Hne. cbn [negb].
  rewrite get_tasks_refresh_at.
  fold (has_id tid). rewrite split_first_map by reflexivity.
  rewrite Hsplit.
  unfold bind at 1, iso_now at 1, bind at 1, utc_now at 1, ret at 1.
  change (mark_running (isoformat (clock (tick w) (ticks (tick w))))
            (refresh_task (clock w (ticks w)) t0)) with running.
  unfold bind at 1.
  destruct (_execute_action self running (tick (tick w))) as [[r|e] w2];
    [|reflexivity].
  unfold _mark_post_run, _refresh_availability, _write_bounty_board,
    _to_bounty_board, _refresh_availability, iso_now, _save,
    write_bounty_board, write_task_store, bind, utc_now, ret, tick.
  cbn [clock ticks task_store bounty_board text_files fst snd].
  rewrite refresh_at_absorb.
  assert (Hl1 : tasks (refresh_at (clock w (ticks w)) data)
                = Some (map (refresh_task (clock w (ticks w))) l)).
  { destruct data as [o]. simpl in Hl. subst o. reflexivity. }
  rewrite refresh_at_set_tasks
    by (rewrite Hl1; discriminate).
  rewrite map_app. cbn [map]. rewrite !map_map.
  rewrite (map_ext _ _ (refresh_task_absorb _ _)).
  rewrite (map_ext (fun x => refresh_task _ (refresh_task _ x)) _
             (refresh_task_absorb _ _)).
  reflexivity.
Qed.

(** C6. When no task of the store is eligible at the time of the first
    refresh, [run_once] returns [{ran: false, reason: no_available_task}]
    without raising; it has written the bounty board, whose [updated_at] is
    the clock reading taken for it in this cycle and whose entries project
    the saved tasks, and it has saved the task store; every saved task is
    the loaded one with nothing changed but [state.available]. *)
Theorem idle_cycle (self : BackgroundTaskService)
    (preferred_task_id : option string) (w : World) (data : Data) :
  task_store w = Some data ->
  (forall t, In t (get_tasks data) -> _available t (clock w (ticks w)) = false) ->
  let t2 := clock w (S (ticks w)) in
  let t3 := clock w (S (S (ticks w))) in
  let saved := refresh_at t2 data in
  let board := mkBoard (isoformat t3) "closed"
                       (map board_entry (get_tasks saved)) in
  run_once self preferred_task_id w
  = (Ok (NotRun "no_available_task"),
     mkWorld (clock w) (S (S (S (ticks w)))) (Some saved) (Some board)
             (text_files w))
  /\ Forall2 same_but_available (get_tasks data) (get_tasks saved).
Proof.
  intros Hstore Hnone t2 t3 saved board. split.
  - unfold run_once, bind at 1, _load. rewrite Hstore.
    unfold bind at 1, _refresh_availability at 1, bind at 1, utc_now at 1, ret at 1.
    rewrite pick_none_when_unavailable.
    + cbn [PyStr.truthy negb].
      unfold _write_bounty_board, _to_bounty_board, _refresh_availability,
        iso_now, _save, write_bounty_board, write_task_store, bind, utc_now,
        ret, tick. cbn [clock ticks task_store bounty_board text_files fst snd].
      rewrite refresh_at_absorb. reflexivity.
    + intros t Hin. rewrite get_tasks_refresh_at in Hin.
      apply in_map_iff in Hin. destruct Hin as [t0 [<- Hin]].
      rewrite state_available_refresh_task. now apply Hnone.
  - subst saved. rewrite get_tasks_refresh_at. clear Hnone Hstore board.
    induction (get_tasks data) as [|t l IH]; simpl; constructor.
    + apply refresh_task_same_but_available.
    + exact IH.
Qed.

(** C9. When the task file does not exist, [run_once] ends with
    [FileNotFoundError]: the exception is its outcome, not a report, and
    the world is the one it started in, so neither file was written. *)
Theorem missing_task_file_is_fatal (self : BackgroundTaskService)
    (preferred_task_id : option string) (w : World) :
  task_store w = None ->
  run_once self preferred_task_id w
  = (Raise (FileNotFoundError ("Task file not found: " ++ task_file self)), w).
Proof.
  intro H. unfold run_once, bind, _load. now rewrite H.
Qed.

Lemma split_first_intro {A} (p : A -> bool) (b a : list A) (x : A) :
  p x = true -> (forall y, In y b -> p y = false) ->
  split_first p (b ++ x :: a) = Some (b, x, a).
Proof.
  intros Hx. induction b as [|y b IH]; intro Hb; simpl.
  - now rewrite Hx.
  - rewrite (Hb y (or_introl eq_refl)), IH; auto. intros z Hz. apply Hb. now right.
Qed.





End CycleProperties.

(* ===================================================================== *)
(** * The cycle on concrete stores *)
(* ===================================================================== *)

Lemma idle_cycle_witness :
  let DT := Iso8601.datetime in
  fst (run_once cli_service None (world_with [dup_first]))
  = Ok (NotRun "no_available_task")
  /\ bounty_board (snd (run_once cli_service None (world_with [dup_first])))
     = Some (mkBoard "2024-11-03T10:30:02+00:00" "closed"
                     [board_entry dup_first]).
Proof.
  intro DT.
  destruct (idle_cycle (DT := DT) cli_service None (world_with [dup_first])
              (mkData (Some [dup_first])) eq_refl) as [Hrun _].
  - intros t [<-|[]]. vm_compute. reflexivity.
  - rewrite Hrun. split; vm_compute; reflexivity.
Defined.

Lemma missing_task_file_is_fatal_witness :
  let DT := Iso8601.datetime in
  run_once cli_service (Some "t1") frozen_world
  = (Raise (FileNotFoundError "Task file not found: background_tasks.json"),
     frozen_world).
Proof.
  intro DT.
  apply (missing_task_file_is_fatal (DT := DT) cli_service (Some "t1")
           frozen_world).
  reflexivity.
Defined.

Example end_to_end :
  let DT := Iso8601.datetime in
  let out := run_once cli_service None (world_with [t1_task]) in
  fst out = Ok (Ran (Some "t1") true "Wrote KMS/background_memory_update.log")
  /\ option_map (fun d => map (fun t => (status (get_state t),
                                          next_available_at (get_state t)))
                              (get_tasks d))
                (task_store (snd out))
     = Some [(Some "success", Some "2024-11-03T10:31:03+00:00")]
  /\ option_map (fun b => map be_available (board_tasks b))
                (bounty_board (snd out))
     = Some [false].
Proof. vm_compute. repeat split. Qed.


(** The disabled first task is the one that runs; the late one, whose
    availability made the preferred id acceptable, only has its
    [available] flag recomputed. *)
Example preferred_duplicate_runs_first :
  let DT := Iso8601.datetime in
  let out := run_once cli_service (Some "dup")
                      (world_with [rich_task; dup_first; dup_late]) in
  fst out = Ok (Ran (Some "dup") true "Wrote KMS/background_service_reload.log")
  /\ option_map (fun d => map (fun t => (task_name t, status (get_state t),
                                          available (get_state t)))
                              (get_tasks d))
                (task_store (snd out))
     = Some [(Some "third", None, Some true);
             (Some "first", Some "success", Some false);
             (Some "late", Some "success", Some true)].
Proof. vm_compute. repeat split. Qed.




(* ===================================================================== *)
(** * The two outcomes of a cycle *)
(* ===================================================================== *)

Section CycleOutcomes.

Context {DT : Datetime}.

(** A cycle in which selection returns nothing, or an empty id. *)
Lemma run_once_idle (self : BackgroundTaskService) (pref : option string)
    (w : World) (data : Data) :
  task_store w = Some data ->
  PyStr.truthy (_pick_task_id (refresh_at (clock w (ticks w)) data) pref)
  = false ->
  run_once self pref w = (Ok (NotRun "no_available_task"), idle_world w data).
Proof.
  intros Hstore Hpick.
  unfold run_once, bind at 1, _load. rewrite Hstore.
  unfold bind at 1, _refresh_availability at 1, bind at 1, utc_now at 1, ret at 1.
  rewrite Hpick. cbn [negb].
  unfold _write_bounty_board, _to_bounty_board, _refresh_availability,
    iso_now, _save, write_bounty_board, write_task_store, bind, utc_now,
    ret, tick, idle_world, board_of.
  cbn [clock ticks task_store bounty_board text_files fst snd].
  rewrite refresh_at_absorb. reflexivity.
Qed.

(** A cycle in which selection returns the id [tid]. *)
Lemma run_once_selected (self : BackgroundTaskService) (pref : option string)
    (w : World) (data : Data) (tid : string) (b0 a0 : list Task) (t0 : Task) :
  task_store w = Some data ->
  _pick_task_id (refresh_at (clock w (ticks w)) data) pref = Some tid ->
  tid <> "" ->
  split_first (has_id tid) (get_tasks data) = Some (b0, t0, a0) ->
  run_once self pref w
  = match _execute_action self
            (mark_running (isoformat (clock w (S (ticks w)))) t0)
            (tick (tick w)) with
    | (Raise e, w2) => (Raise e, w2)
    | (Ok r, w2) =>
        (Ok (Ran (Some tid) (ok r) (details r)), ran_world w b0 t0 a0 r w2)
    end.
Proof.
  intros Hstore Hpick Hne Hsplit.
  rewrite (run_once_ran self pref w data tid b0 a0 t0 Hstore Hpick Hne Hsplit).
  reflexivity.
Qed.

(** Every cycle that finds the task file is of one of these two kinds. *)
Lemma run_once_cases (self : BackgroundTaskService) (pref : option string)
    (w : World) (data : Data) :
  task_store w = Some data ->
  (PyStr.truthy (_pick_task_id (refresh_at (clock w (ticks w)) data) pref)
   = false
   /\ run_once self pref w
      = (Ok (NotRun "no_available_task"), idle_world w data))
  \/ exists tid b0 t0 a0,
       _pick_task_id (refresh_at (clock w (ticks w)) data) pref = Some tid
       /\ tid <> ""
       /\ split_first (has_id tid) (get_tasks data) = Some (b0, t0, a0)
       /\ run_once self pref w
          = match _execute_action self
                    (mark_running (isoformat (clock w (S (ticks w)))) t0)
                    (tick (tick w)) with
            | (Raise e, w2) => (Raise e, w2)
            | (Ok r, w2) =>
                (Ok (Ran (Some tid) (ok r) (details r)),
                 ran_world w b0 t0 a0 r w2)
            end.
Proof.
  intro Hstore.
  destruct (PyStr.truthy
              (_pick_task_id (refresh_at (clock w (ticks w)) data) pref))
    eqn:Etr.
  - right.
    destruct (_pick_task_id (refresh_at (clock w (ticks w)) data) pref)
      as [tid|] eqn:Epick; [|discriminate].
    apply truthy_Some in Etr.
    destruct (pick_id_in_tasks _ _ _ Epick) as [t [Hin Hid]].
    rewrite get_tasks_refresh_at in Hin. apply in_map_iff in Hin.
    destruct Hin as [t' [<- Hin]].
    destruct (split_first_exists (has_id tid) (get_tasks data) t' Hin)
      as (b0 & t0 & a0 & Hsplit).
    { unfold has_id. apply eqb_opt_eq. exact Hid. }
    exists tid, b0, t0, a0.
    split; [reflexivity|]. split; [exact Etr|]. split; [exact Hsplit|].
    exact (run_once_selected self pref w data tid b0 a0 t0
             Hstore Epick Etr Hsplit).
  - left. split; [reflexivity|].
    exact (run_once_idle self pref w data Hstore Etr).
Qed.

End CycleOutcomes.

(* ===================================================================== *)
(** * Bounty board publisher *)
(* ===================================================================== *)

Section BoardProperties.

Context {DT : Datetime}.




End BoardProperties.

(* ===================================================================== *)
(** * What every cycle keeps *)
(* ===================================================================== *)

Section CycleInvariants.

Context {DT : Datetime}.

Lemma run_once_no_store (self : BackgroundTaskService) (pref : option string)
    (w : World) :
  task_store w = None ->
  run_once self pref w
  = (Raise (FileNotFoundError ("Task file not found: " ++ task_file self)), w).
Proof. intro H. unfold run_once, bind, _load. now rewrite H. Qed.

(** A cycle that returns found the task file. *)
Lemma run_once_ok_store (self : BackgroundTaskService) (pref : option string)
    (w w' : World) (report : RunReport) :
  run_once self pref w = (Ok report, w') ->
  exists data, task_store w = Some data.
Proof.
  intro H. destruct (task_store w) as [data|] eqn:E; [now exists data|].
  rewrite (run_once_no_store self pref w E) in H. discriminate.
Qed.

Lemma refresh_task_fresh (now : Z) (task : Task) :
  available (get_state (refresh_task now task))
  = Some (_available (refresh_task now task) now).
Proof. now rewrite available_refresh_task. Qed.

Lemma get_tasks_ran_store (w : World) (b0 a0 : list Task) (t0 : Task)
    (r : TaskRunResult) (w2 : World) :
  get_tasks (ran_store w b0 t0 a0 r w2)
  = (map (refresh_task (clock w2 (S (S (ticks w2))))) b0
     ++ settled_task w t0 r w2
        :: map (refresh_task (clock w2 (S (S (ticks w2))))) a0)%list.
Proof. reflexivity. Qed.

(** X3. After every cycle that returns, both files exist and agree: the
    entries of the board are the projection of the saved tasks, the stamp
    of the board is the last reading of the clock the cycle took, and the
    [available] flag of every saved task is [_available] of that task at
    the reading before it. *)
Theorem cycle_publishes_saved_store (self : BackgroundTaskService)
    (preferred_task_id : option string) (w w' : World) (report : RunReport) :
  run_once self preferred_task_id w = (Ok report, w') ->
  exists saved board,
    task_store w' = Some saved
    /\ bounty_board w' = Some board
    /\ board_tasks board = map board_entry (get_tasks saved)
    /\ updated_at board = isoformat (clock w' (pred (ticks w')))
    /\ forall t, In t (get_tasks saved) ->
         available (get_state t)
         = Some (_available t (clock w' (pred (pred (ticks w'))))).
Proof.
  intro H. destruct (run_once_ok_store _ _ _ _ _ H) as [data Hstore].
  destruct (run_once_cases self preferred_task_id w data Hstore)
    as [[_ Hrun]|(tid & b0 & t0 & a0 & _ & _ & _ & Hrun)];
    rewrite Hrun in H.
  - injection H as _ <-. unfold idle_world.
    eexists _, _. split; [reflexivity|]. split; [reflexivity|].
    split; [reflexivity|]. split; [reflexivity|].
    cbn [clock ticks pred]. intros t Hin.
    rewrite get_tasks_refresh_at in Hin. apply in_map_iff in Hin.
    destruct Hin as [x [<- _]]. apply refresh_task_fresh.
  - destruct (_execute_action self _ (tick (tick w))) as [[r|e] w2];
      [|discriminate].
    injection H as _ <-. unfold ran_world.
    eexists _, _. split; [reflexivity|]. split; [reflexivity|].
    split; [reflexivity|]. split; [reflexivity|].
    cbn [clock ticks pred]. intros t Hin.
    rewrite get_tasks_ran_store in Hin.
    apply in_app_or in Hin. destruct Hin as [Hin|[<-|Hin]].
    + apply in_map_iff in Hin. destruct Hin as [x [<- _]].
      apply refresh_task_fresh.
    + apply refresh_task_fresh.
    + apply in_map_iff in Hin. destruct Hin as [x [<- _]].
      apply refresh_task_fresh.
Qed.

Lemma Forall2_map_same_definition (f : Task -> Task) (l : list Task) :
  (forall t, same_definition t (f t)) ->
  Forall2 same_definition l (map f l).
Proof.
  intro H. induction l as [|t l IH]; simpl; constructor; auto.
Qed.

Lemma refresh_task_same_definition (now : Z) (t : Task) :
  same_definition t (refresh_task now t).
Proof. repeat split. Qed.

(** X4. A cycle that returns saves as many tasks as it loaded, in the same
    order, and each with the definition it had: id, name, action, domain,
    runtime, bounty and q_learning are never written; only [state] is. *)
Theorem cycle_keeps_task_definitions (self : BackgroundTaskService)
    (preferred_task_id : option string) (w w' : World) (report : RunReport) :
  run_once self preferred_task_id w = (Ok report, w') ->
  exists data saved,
    task_store w = Some data
    /\ task_store w' = Some saved
    /\ Forall2 same_definition (get_tasks data) (get_tasks saved).
Proof.
  intro H. destruct (run_once_ok_store _ _ _ _ _ H) as [data Hstore].
  exists data.
  destruct (run_once_cases self preferred_task_id w data Hstore)
    as [[_ Hrun]|(tid & b0 & t0 & a0 & _ & _ & Hsplit & Hrun)];
    rewrite Hrun in H.
  - injection H as _ <-. eexists. split; [exact Hstore|].
    split; [reflexivity|]. rewrite get_tasks_refresh_at.
    apply Forall2_map_same_definition, refresh_task_same_definition.
  - destruct (_execute_action self _ (tick (tick w))) as [[r|e] w2];
      [|discriminate].
    injection H as _ <-. eexists. split; [exact Hstore|].
    split; [reflexivity|]. rewrite get_tasks_ran_store.
    destruct (split_first_spec _ _ _ _ _ Hsplit) as (-> & _ & _).
    apply Forall2_app;
      [apply Forall2_map_same_definition, refresh_task_same_definition|].
    constructor;
      [|apply Forall2_map_same_definition, refresh_task_same_definition].
    repeat split.
Qed.

(** X5. No cycle saves a task as running unless the task file already
    said so: the mark the selected task gets before dispatch is replaced
    by ["success"] or ["failed"] before anything is written. *)
Theorem running_is_never_saved (self : BackgroundTaskService)
    (preferred_task_id : option string) (w w' : World) (report : RunReport) :
  run_once self preferred_task_id w = (Ok report, w') ->
  exists data saved,
    task_store w = Some data
    /\ task_store w' = Some saved
    /\ Forall2 (fun old new =>
                  status (get_state new) = Some "running" ->
                  status (get_state old) = Some "running")
               (get_tasks data) (get_tasks saved).
Proof.
  intro H. destruct (run_once_ok_store _ _ _ _ _ H) as [data Hstore].
  exists data.
  assert (Hmap : forall now l,
             Forall2 (fun old new =>
                        status (get_state new) = Some "running" ->
                        status (get_state old) = Some "running")
                     l (map (refresh_task now) l)).
  { intros now l. induction l as [|t l IH]; simpl; constructor; auto. }
  destruct (run_once_cases self preferred_task_id w data Hstore)
    as [[_ Hrun]|(tid & b0 & t0 & a0 & _ & _ & Hsplit & Hrun)];
    rewrite Hrun in H.
  - injection H as _ <-. eexists. split; [exact Hstore|].
    split; [reflexivity|]. rewrite get_tasks_refresh_at. apply Hmap.
  - destruct (_execute_action self _ (tick (tick w))) as [[r|e] w2];
      [|discriminate].
    injection H as _ <-. eexists. split; [exact Hstore|].
    split; [reflexivity|]. rewrite get_tasks_ran_store.
    destruct (split_first_spec _ _ _ _ _ Hsplit) as (-> & _ & _).
    apply Forall2_app; [apply Hmap|]. constructor; [|apply Hmap].
    unfold settled_task.
    change (status (get_state (refresh_task _ (mark_post_run_at ?n ?t r))))
      with (Some (if ok r then "success" else "failed")).
    destruct (ok r); discriminate.
Qed.


End CycleInvariants.

(* ===================================================================== *)
(** * Action dispatcher *)
(* ===================================================================== *)

Lemma lstrip_all_space (s : string) :
  all_space s = true -> PyStr.lstrip s = "".
Proof.
  induction s as [|c s IH]; simpl; [reflexivity|].
  intro H. apply andb_true_iff in H. destruct H as [Hc Hs].
  rewrite Hc. now apply IH.
Qed.

Lemma rstrip_all_space (s : string) :
  all_space s = true -> PyStr.rstrip s = "".
Proof.
  induction s as [|c s IH]; simpl; [reflexivity|].
  intro H. apply andb_true_iff in H. destruct H as [Hc Hs].
  now rewrite (IH Hs), Hc.
Qed.

Lemma lstrip_app_space (pre s : string) :
  all_space pre = true -> PyStr.lstrip (pre ++ s) = PyStr.lstrip s.
Proof.
  induction pre as [|c pre IH]; simpl; [reflexivity|].
  intro H. apply andb_true_iff in H. destruct H as [Hc Hs].
  rewrite Hc. now apply IH.
Qed.

Lemma rstrip_app_space (s post : string) :
  all_space post = true -> PyStr.rstrip (s ++ post) = PyStr.rstrip s.
Proof.
  intro H. induction s as [|c s IH]; simpl.
  - now apply rstrip_all_space.
  - now rewrite IH.
Qed.

Lemma strip_app_space (s post : string) :
  all_space post = true -> PyStr.strip (s ++ post) = PyStr.strip s.
Proof.
  intro H. unfold PyStr.strip. induction s as [|c s IH]; simpl.
  - now rewrite (lstrip_all_space post H).
  - destruct (PyStr.isspace c); [exact IH|].
    change (String c (s ++ post)) with (String c s ++ post).
    now apply rstrip_app_space.
Qed.

(** Whitespace around a string does not survive [strip]. *)
Lemma strip_padded (pre s post : string) :
  all_space pre = true -> all_space post = true ->
  PyStr.strip (pre ++ s ++ post) = PyStr.strip s.
Proof.
  intros Hpre Hpost. unfold PyStr.strip.
  rewrite (lstrip_app_space pre (s ++ post) Hpre).
  exact (strip_app_space s post Hpost).
Qed.

Lemma all_space_app (a b : string) :
  all_space a = true -> all_space b = true -> all_space (a ++ b) = true.
Proof.
  intros Ha Hb. induction a as [|c a IH]; simpl; [exact Hb|].
  simpl in Ha. apply andb_true_iff in Ha. destruct Ha as [Hc Ha].
  now rewrite Hc, IH.
Qed.

Lemma or_empty_Some (s : string) : PyStr.or_empty (Some s) = s.
Proof.
  unfold PyStr.or_empty. simpl. destruct (String.eqb s "") eqn:E; simpl.
  - apply String.eqb_eq in E. now subst.
  - reflexivity.
Qed.

Section DispatcherProperties.

Context {DT : Datetime}.

(** X7. The dispatcher looks at the action with the whitespace around it
    removed: each of the four keys, padded with any whitespace on either
    side, reaches the handler of that key, which is handed the task as it
    is; an action that is absent or made of whitespace only is unknown
    and reported with an empty name. *)
Theorem padded_key_reaches_its_handler (self : BackgroundTaskService)
    (task : Task) (pre post : string) :
  all_space pre = true -> all_space post = true ->
  (task_action task = Some (pre ++ "memory_update" ++ post) ->
   _execute_action self task = memory_update (service_adapter self) task)
  /\ (task_action task = Some (pre ++ "reload_service" ++ post) ->
      _execute_action self task = reload_service (service_adapter self) task)
  /\ (task_action task = Some (pre ++ "claim_daily_rewards" ++ post) ->
      _execute_action self task
      = claim_daily_rewards (browser_adapter self) task)
  /\ (task_action task = Some (pre ++ "close_advertisement" ++ post) ->
      _execute_action self task
      = close_advertisement (browser_adapter self) task)
  /\ ((task_action task = None \/ task_action task = Some (pre ++ post)) ->
      forall w,
        _execute_action self task w
        = (Ok (mkTaskRunResult false "Unknown action: "), w)).
Proof.
  intros Hpre Hpost.
  assert (Hkey : forall key, task_action task = Some (pre ++ key ++ post) ->
                   PyStr.strip (PyStr.or_empty (task_action task))
                   = PyStr.strip key).
  { intros key ->. rewrite or_empty_Some. now apply strip_padded. }
  repeat split; intro H.
  - unfold _execute_action. now rewrite (Hkey _ H).
  - unfold _execute_action. now rewrite (Hkey _ H).
  - unfold _execute_action. now rewrite (Hkey _ H).
  - unfold _execute_action. now rewrite (Hkey _ H).
  - intro w. unfold _execute_action.
    assert (E : PyStr.strip (PyStr.or_empty (task_action task)) = "").
    { destruct H as [->| ->]; [reflexivity|].
      rewrite or_empty_Some. unfold PyStr.strip.
      rewrite lstrip_all_space; [reflexivity|]. now apply all_space_app. }
    now rewrite E.
Qed.

Ltac run_default_adapters :=
  cbv [new_service get_or service_adapter browser_adapter
       default_service_adapter default_browser_adapter memory_update
       reload_service claim_daily_rewards close_advertisement iso_now bind
       utc_now ret write_text tick];
  cbn [clock ticks task_store bounty_board text_files].

(** X8. With the adapters the constructor supplies, the dispatcher never
    raises and its outcome is decided by the stripped action alone: [ok]
    is true exactly for [memory_update] and [reload_service]; a failing
    dispatch leaves the world as it was; no dispatch touches the task file,
    the board or the clock's course, and a successful one reads the clock
    once and writes one log file, the one its details name.  (Writing a
    file succeeds in the model: failures of the file system are not
    modelled.) *)
Theorem default_dispatch_outcome (task_file_ bounty_board_file_ : string)
    (task : Task) (w : World) :
  let self := new_service task_file_ bounty_board_file_ None None in
  let action := PyStr.strip (PyStr.or_empty (task_action task)) in
  exists r w',
    _execute_action self task w = (Ok r, w')
    /\ (ok r = true <-> action = "memory_update" \/ action = "reload_service")
    /\ (ok r = false -> w' = w)
    /\ (ok r = true ->
        ticks w' = S (ticks w)
        /\ exists path line,
             text_files w' = (path, line) :: text_files w
             /\ details r = "Wrote " ++ path)
    /\ clock w' = clock w
    /\ task_store w' = task_store w
    /\ bounty_board w' = bounty_board w.
Proof.
  intros self action. subst self. unfold _execute_action. fold action.
  destruct (String.eqb action "memory_update") eqn:E1.
  { apply String.eqb_eq in E1. run_default_adapters.
    eexists _, _. split; [reflexivity|].
    cbn. repeat split; auto; try discriminate.
    eexists _, _. split; reflexivity. }
  destruct (String.eqb action "reload_service") eqn:E2.
  { apply String.eqb_eq in E2. run_default_adapters.
    eexists _, _. split; [reflexivity|].
    cbn. repeat split; auto; try discriminate.
    eexists _, _. split; reflexivity. }
  apply String.eqb_neq in E1, E2.
  destruct (String.eqb action "claim_daily_rewards");
    [|destruct (String.eqb action "close_advertisement")];
    run_default_adapters;
    (eexists _, _; split; [reflexivity|]; cbn;
     repeat split; auto; try discriminate; intros [H|H]; contradiction).
Qed.



End DispatcherProperties.

(* ===================================================================== *)
(** * More on the selection policy *)
(* ===================================================================== *)

Lemma pick_available (data : Data) (pref : option string) (tid : string) :
  _pick_task_id data pref = Some tid ->
  exists t, In t (get_tasks data) /\ task_id t = Some tid
            /\ state_available t = true.
Proof.
  unfold _pick_task_id. destruct (PyStr.truthy pref).
  - destruct (existsb _ (get_tasks data)) eqn:E; [|discriminate].
    intros ->. apply existsb_exists in E. destruct E as [t [Hin Ht]].
    apply andb_true_iff in Ht. destruct Ht as [Ht Hav].
    apply eqb_opt_eq in Ht. now exists t.
  - destruct (filter state_available (get_tasks data)) as [|c cs] eqn:E;
      [discriminate|].
    destruct (PySort.sort_reverse key_lt (c :: cs)) as [|top rest] eqn:Es;
      [discriminate|].
    intro Hid. exists top.
    assert (Hin : In top (c :: cs)).
    { apply (sort_reverse_In key_lt). rewrite Es. now left. }
    rewrite <- E in Hin. apply filter_In in Hin. tauto.
Qed.

(** X10. Whatever the mode, an id that selection returns is the id of a
    task of the store whose [state.available] is true: selection never
    invents an id and never names a task on the strength of an
    unavailable one. *)
Theorem selection_names_an_available_task (data : Data)
    (preferred_task_id : option string) (tid : string) :
  _pick_task_id data preferred_task_id = Some tid ->
  exists t, In t (get_tasks data) /\ task_id t = Some tid
            /\ available (get_state t) = Some true.
Proof.
  intro H. destruct (pick_available _ _ _ H) as (t & Hin & Hid & Hav).
  exists t. split; [exact Hin|]. split; [exact Hid|].
  now apply state_available_true.
Qed.

Lemma existsb_filter {A} (p q : A -> bool) (l : list A) :
  existsb (fun x => p x && q x) l = existsb (fun x => p x && q x) (filter q l).
Proof.
  induction l as [|x l IH]; simpl; [reflexivity|].
  destruct (q x) eqn:E; simpl; rewrite ?E, IH; [reflexivity|].
  now rewrite andb_false_r.
Qed.

(** X11. Selection reads the tasks whose [state.available] is true and
    nothing else: two stores with the same available tasks, in the same
    order, give the same answer, with and without a preferred id. *)
Theorem selection_ignores_unavailable_tasks (d1 d2 : Data)
    (preferred_task_id : option string) :
  filter state_available (get_tasks d1) = filter state_available (get_tasks d2) ->
  _pick_task_id d1 preferred_task_id = _pick_task_id d2 preferred_task_id.
Proof.
  intro H. unfold _pick_task_id.
  rewrite (existsb_filter _ state_available (get_tasks d1)).
  rewrite (existsb_filter _ state_available (get_tasks d2)).
  now rewrite H.
Qed.

(** X12. List order decides between ties only.  Without a preferred id,
    when the available tasks have no NaN score and no two of them tie
    (neither ranks below the other), reordering the store does not change
    the task selected. *)
Theorem greedy_selection_order_free (d1 d2 : Data)
    (preferred_task_id : option string) :
  PyStr.truthy preferred_task_id = false ->
  Permutation (get_tasks d1) (get_tasks d2) ->
  (forall t, In t (get_tasks d1) -> available (get_state t) = Some true ->
             PyFloat.is_nan (score t) = false) ->
  (forall a b, In a (get_tasks d1) -> In b (get_tasks d1) ->
               available (get_state a) = Some true ->
               available (get_state b) = Some true ->
               ~ ranks_below a b -> ~ ranks_below b a -> a = b) ->
  _pick_task_id d1 preferred_task_id = _pick_task_id d2 preferred_task_id.
Proof.
  intros Hpref Hperm Hnan Htie. unfold _pick_task_id. rewrite Hpref.
  set (c1 := filter state_available (get_tasks d1)).
  set (c2 := filter state_available (get_tasks d2)).
  assert (Hin : forall x, In x c1 <-> In x c2).
  { intro x. unfold c1, c2. rewrite !filter_In. split; intros [H1 H2];
      (split; [|exact H2]).
    - now apply (Permutation_in _ Hperm).
    - now apply (Permutation_in _ (Permutation_sym Hperm)). }
  assert (HP1 : Forall comparable c1).
  { apply Forall_forall. intros c Hc. apply filter_In in Hc.
    destruct Hc as [Hc1 Hc2]. apply Hnan; [exact Hc1|].
    now apply state_available_true. }
  assert (HP2 : Forall comparable c2).
  { rewrite Forall_forall in *. intros c Hc. apply HP1. now apply Hin. }
  destruct c1 as [|x1 r1] eqn:E1.
  - destruct c2 as [|x2 r2]; [reflexivity|].
    exfalso. apply (proj2 (Hin x2)). now left.
  - destruct c2 as [|x2 r2] eqn:E2.
    { exfalso. apply (proj1 (Hin x1)). now left. }
    destruct (sort_reverse_head key_lt comparable key_lt_irrefl key_lt_trans
                key_lt_negtrans (x1 :: r1) HP1 ltac:(discriminate))
      as (f1 & top1 & g1 & Hhd1 & Hmax1).
    destruct (sort_reverse_head key_lt comparable key_lt_irrefl key_lt_trans
                key_lt_negtrans (x2 :: r2) HP2 ltac:(discriminate))
      as (f2 & top2 & g2 & Hhd2 & Hmax2).
    pose proof (first_max_above key_lt comparable key_lt_irrefl key_lt_trans
                  _ _ _ _ HP1 Hmax1) as Hab1.
    pose proof (first_max_above key_lt comparable key_lt_irrefl key_lt_trans
                  _ _ _ _ HP2 Hmax2) as Hab2.
    assert (Ht1 : In top1 (x1 :: r1))
      by (destruct Hmax1 as (-> & _); apply in_elt).
    assert (Ht2 : In top2 (x2 :: r2))
      by (destruct Hmax2 as (-> & _); apply in_elt).
    assert (Heq : top1 = top2).
    { unfold c1 in E1.
      assert (H1 : In top1 (filter state_available (get_tasks d1)))
        by (rewrite E1; exact Ht1).
      assert (H2 : In top2 (filter state_available (get_tasks d1)))
        by (rewrite E1; apply Hin; exact Ht2).
      apply filter_In in H1, H2.
      destruct H1 as [H1 A1], H2 as [H2 A2].
      apply state_available_true in A1, A2.
      apply Htie; auto.
      - intro Hr. apply key_lt_ranks_below in Hr.
        rewrite Hab1 in Hr; [discriminate|]. apply Hin. exact Ht2.
      - intro Hr. apply key_lt_ranks_below in Hr.
        rewrite Hab2 in Hr; [discriminate|]. apply Hin. exact Ht1. }
    destruct (PySort.sort_reverse key_lt (x1 :: r1)); [discriminate|].
    destruct (PySort.sort_reverse key_lt (x2 :: r2)); [discriminate|].
    simpl in Hhd1, Hhd2. injection Hhd1 as ->. injection Hhd2 as ->.
    now rewrite Heq.
Qed.

(* ===================================================================== *)
(** * Which task a cycle runs *)
(* ===================================================================== *)

Section WhichTaskRuns.

Context {DT : Datetime}.



(** X15. The report of a cycle that ran a task and the record it saved
    agree: the saved store holds a task with the reported id, the first
    one with that id, whose [status] is ["success"] or ["failed"] after the
    reported [ok] and whose [last_result] is the reported details; the
    reported id is never empty. *)
Theorem report_matches_saved_record (self : BackgroundTaskService)
    (preferred_task_id : option string) (w w' : World)
    (tid : option string) (ok_ : bool) (details_ : string) :
  run_once self preferred_task_id w = (Ok (Ran tid ok_ details_), w') ->
  PyStr.truthy tid = true
  /\ exists before settled after,
       task_store w'
       = Some (mkData (Some (before ++ settled :: after)%list))
       /\ task_id settled = tid
       /\ (forall b, In b before -> task_id b <> tid)
       /\ status (get_state settled)
          = Some (if ok_ then "success" else "failed")
       /\ last_result (get_state settled) = Some details_
       /\ consecutive_failures (get_state settled) <> None
       /\ last_started_at (get_state settled) <> None
       /\ last_completed_at (get_state settled) <> None.
Proof.
  intro H. destruct (run_once_ok_store _ _ _ _ _ H) as [data Hstore].
  destruct (run_once_cases self preferred_task_id w data Hstore)
    as [[_ Hrun]|(id & b0 & t0 & a0 & _ & Hne & Hsplit & Hrun)];
    rewrite Hrun in H; [discriminate|].
  destruct (_execute_action self _ (tick (tick w))) as [[r|e] w2];
    [|discriminate].
  injection H as <- <- <- <-.
  destruct (split_first_spec _ _ _ _ _ Hsplit) as (Hl & Ht0 & Hb0).
  split; [now apply truthy_Some|].
  eexists _, _, _. split; [reflexivity|].
  split; [now apply eqb_opt_eq|].
  split.
  - intros b Hb. apply in_map_iff in Hb. destruct Hb as [x [<- Hx]].
    apply eqb_opt_neq. exact (Hb0 x Hx).
  - repeat split; discriminate.
Qed.

End WhichTaskRuns.

(* ===================================================================== *)
(** * Settling over time *)
(* ===================================================================== *)

Section SettleProperties.

Context {DT : Datetime}.

(** X16. The cooldown gate for any duration.  A task that is not disabled
    and is settled at [T]: with a positive cooldown of [c] seconds, and a
    timestamp that reads back as written, it is unavailable at every
    instant before [T + c] seconds and available at every instant from
    then on; with a cooldown that is absent, zero or negative there is no
    gate, it is available at every instant. *)
Theorem cooldown_gate (task : Task) (T : Z) (r : TaskRunResult) :
  enabled (get_runtime task) <> Some false ->
  let c := get_or (cooldown_sec (get_bounty task)) 0 in
  let settled := mark_post_run_at T task r in
  (0 < c ->
   parse_iso_or_none (Some (isoformat (T + timedelta_seconds c)))
   = Some (T + timedelta_seconds c) ->
   forall t, _available settled t = negb (t <? T + timedelta_seconds c))
  /\ (c <= 0 -> forall t, _available settled t = true).
Proof.
  intros Hen c settled.
  assert (Hfac : forall t,
             _available settled t
             = match parse_iso_or_none
                       (if 0 <? c
                        then Some (isoformat (T + timedelta_seconds c))
                        else None) with
               | Some next_at => negb (t <? next_at)
               | None => true
               end).
  { intro t. rewrite available_factors. unfold available_of.
    unfold settled. rewrite mark_post_run_at_runtime, mark_post_run_at_status,
      mark_post_run_at_next. fold c.
    destruct (enabled (get_runtime task)) as [[|]|]; try contradiction;
      destruct (ok r); reflexivity. }
  split.
  - intros Hc Hrt t. rewrite Hfac.
    apply Z.ltb_lt in Hc. rewrite Hc, Hrt. reflexivity.
  - intros Hc t. rewrite Hfac.
    apply Z.ltb_ge in Hc. rewrite Hc. reflexivity.
Qed.

Lemma settle_all_app (e1 e2 : list (Z * TaskRunResult)) (task : Task) :
  settle_all (e1 ++ e2) task = settle_all e2 (settle_all e1 task).
Proof. unfold settle_all. apply fold_left_app. Qed.

Lemma settle_all_failures (events : list (Z * TaskRunResult)) (task : Task) :
  Forall (fun e => ok (snd e) = false) events ->
  get_or (consecutive_failures (get_state (settle_all events task))) 0
  = get_or (consecutive_failures (get_state task)) 0
    + Z.of_nat (List.length events).
Proof.
  revert task. induction events as [|e events IH]; intros task H.
  - simpl. lia.
  - inversion H as [|? ? He Hrest]; subst.
    change (settle_all (e :: events) task)
      with (settle_all events (mark_post_run_at (fst e) task (snd e))).
    rewrite (IH _ Hrest).
    change (consecutive_failures
              (get_state (mark_post_run_at (fst e) task (snd e))))
      with (Some (if ok (snd e) then 0
                  else get_or (consecutive_failures (get_state task)) 0 + 1)).
    rewrite He. cbn [get_or List.length]. lia.
Qed.

(** X17. [consecutive_failures] counts the failures since the last success.
    Settling a run of failures adds their number to the counter (an absent
    counter counts as 0); once a success has been settled, whatever came
    before it is forgotten, and the counter is the number of failures
    settled after it. *)
Theorem consecutive_failures_count (task : Task)
    (before failures : list (Z * TaskRunResult)) (T : Z)
    (success : TaskRunResult) :
  Forall (fun e => ok (snd e) = false) failures ->
  get_or (consecutive_failures (get_state (settle_all failures task))) 0
  = get_or (consecutive_failures (get_state task)) 0
    + Z.of_nat (List.length failures)
  /\ (ok success = true ->
      get_or (consecutive_failures
                (get_state (settle_all (before ++ (T, success) :: failures)
                                       task))) 0
      = Z.of_nat (List.length failures)).
Proof.
  intro Hf. split; [now apply settle_all_failures|].
  intro Hok.
  change (before ++ (T, success) :: failures)%list
    with (before ++ [(T, success)] ++ failures)%list.
  rewrite !settle_all_app, (settle_all_failures _ _ Hf).
  change (settle_all [(T, success)] (settle_all before task))
    with (mark_post_run_at T (settle_all before task) success).
  change (consecutive_failures
            (get_state (mark_post_run_at T (settle_all before task) success)))
    with (Some (if ok success then 0
                else get_or (consecutive_failures
                               (get_state (settle_all before task))) 0 + 1)).
  rewrite Hok. cbn [get_or]. lia.
Qed.

End SettleProperties.

(* ===================================================================== *)
(** * Cycles in a row *)
(* ===================================================================== *)

Section CyclesInARow.

Context {DT : Datetime}.

(** X18. Idle cycles do not pile up changes.  After two cycles in a row
    that both select nothing, the task file holds the store the first one
    loaded, refreshed once, at the refresh of the second cycle's board;
    six readings of the clock were taken and no adapter was called. *)
Theorem two_idle_cycles (self : BackgroundTaskService)
    (p1 p2 : option string) (w : World) (data : Data) :
  task_store w = Some data ->
  PyStr.truthy (_pick_task_id (refresh_at (clock w (ticks w)) data) p1)
  = false ->
  PyStr.truthy
    (_pick_task_id (refresh_at (clock w (3 + ticks w)) data) p2) = false ->
  let saved := refresh_at (clock w (4 + ticks w)) data in
  (run_once self p1 ;;; run_once self p2) w
  = (Ok (NotRun "no_available_task"),
     mkWorld (clock w) (6 + ticks w) (Some saved)
             (Some (board_of (clock w (5 + ticks w)) saved)) (text_files w)).
Proof.
  intros Hstore H1 H2 saved. unfold bind.
  rewrite (run_once_idle self p1 w data Hstore H1).
  rewrite (run_once_idle self p2 (idle_world w data)
             (refresh_at (clock w (S (ticks w))) data) eq_refl).
  - unfold idle_world. cbn [clock ticks text_files].
    rewrite refresh_at_absorb. reflexivity.
  - unfold idle_world. cbn [clock ticks]. rewrite refresh_at_absorb.
    exact H2.
Qed.

(** X19. The loop has no handler for exceptions: when the task file is
    missing, [run_forever] raises [FileNotFoundError] in its first turn,
    however many turns it was to take; nothing is logged, nothing is
    written and no later turn retries. *)
Theorem loop_dies_without_task_file (self : BackgroundTaskService)
    (interval_sec : PyFloat.float) (cycles : nat) (w : World) :
  task_store w = None ->
  run_forever (S cycles) self interval_sec w
  = (Raise (FileNotFoundError ("Task file not found: " ++ task_file self)), w).
Proof.
  intro H. simpl. unfold bind at 1.
  now rewrite (run_once_no_store self None w H).
Qed.


End CyclesInARow.

(* ===================================================================== *)
(** * The cooldown across cycles *)
(* ===================================================================== *)

Section CooldownAcrossCycles.

Context {DT : Datetime}.

Lemma settled_unavailable (task : Task) (T t : Z) (r : TaskRunResult) :
  0 < get_or (cooldown_sec (get_bounty task)) 0 ->
  parse_iso_or_none
    (Some (isoformat
             (T + timedelta_seconds
                    (get_or (cooldown_sec (get_bounty task)) 0))))
  = Some (T + timedelta_seconds (get_or (cooldown_sec (get_bounty task)) 0)) ->
  t < T + timedelta_seconds (get_or (cooldown_sec (get_bounty task)) 0) ->
  _available (mark_post_run_at T task r) t = false.
Proof.
  intros Hc Hrt Hlt. apply available_false_iff. right; right.
  exists (T + timedelta_seconds (get_or (cooldown_sec (get_bounty task)) 0)).
  rewrite mark_post_run_at_next. apply Z.ltb_lt in Hc. rewrite Hc.
  split; [exact Hrt|exact Hlt].
Qed.

(** X21. A task that was just run with a positive cooldown is saved and
    published as unavailable.  When the adapter returns and less than the
    cooldown passes between the settling and the refresh for the board
    (the timestamp reading back as written), the saved task and its entry
    on the board, both at the place the task has in the store, carry
    [available = false] and the end of the cooldown as
    [next_available_at]. *)
Theorem cooling_task_is_published_unavailable (self : BackgroundTaskService)
    (preferred_task_id : option string) (w w2 : World) (data : Data)
    (tid : string) (b0 a0 : list Task) (t0 : Task) (r : TaskRunResult) :
  task_store w = Some data ->
  _pick_task_id (refresh_at (clock w (ticks w)) data) preferred_task_id
  = Some tid ->
  tid <> "" ->
  get_tasks data = (b0 ++ t0 :: a0)%list ->
  task_id t0 = Some tid ->
  (forall b, In b b0 -> task_id b <> Some tid) ->
  _execute_action self (mark_running (isoformat (clock w (S (ticks w)))) t0)
                  (tick (tick w))
  = (Ok r, w2) ->
  let c := get_or (cooldown_sec (get_bounty t0)) 0 in
  let ends := clock w2 (ticks w2) + timedelta_seconds c in
  0 < c ->
  parse_iso_or_none (Some (isoformat ends)) = Some ends ->
  clock w2 (S (S (ticks w2))) < ends ->
  exists w' saved board settled entry,
    run_once self preferred_task_id w
    = (Ok (Ran (Some tid) (ok r) (details r)), w')
    /\ task_store w' = Some saved
    /\ bounty_board w' = Some board
    /\ nth_error (get_tasks saved) (List.length b0) = Some settled
    /\ nth_error (board_tasks board) (List.length b0) = Some entry
    /\ available (get_state settled) = Some false
    /\ next_available_at (get_state settled) = Some (isoformat ends)
    /\ be_id entry = Some tid
    /\ be_available entry = false
    /\ be_next_available_at entry = Some (isoformat ends).
Proof.
  intros Hstore Hpick Hne Hl Hid Hb0 Hex c ends Hc Hrt Hlt.
  assert (Hsplit : split_first (has_id tid) (get_tasks data)
                   = Some (b0, t0, a0)).
  { rewrite Hl. apply split_first_intro.
    - apply eqb_opt_eq. exact Hid.
    - intros y Hy. apply eqb_opt_neq. now apply Hb0. }
  pose proof (run_once_selected self preferred_task_id w data tid b0 a0 t0
                Hstore Hpick Hne Hsplit) as Hrun.
  rewrite Hex in Hrun.
  set (running := mark_running (isoformat (clock w (S (ticks w)))) t0).
  assert (Hav : _available (mark_post_run_at (clock w2 (ticks w2)) running r)
                           (clock w2 (S (S (ticks w2)))) = false).
  { apply settled_unavailable; assumption. }
  assert (Hflag : available (get_state (settled_task w t0 r w2)) = Some false).
  { unfold settled_task. fold running.
    change (available
              (get_state
                 (refresh_task (clock w2 (S (S (ticks w2))))
                    (mark_post_run_at (clock w2 (ticks w2)) running r))))
      with (Some (_available
                    (mark_post_run_at (clock w2 (ticks w2)) running r)
                    (clock w2 (S (S (ticks w2)))))).
    now rewrite Hav. }
  assert (Hnext : next_available_at (get_state (settled_task w t0 r w2))
                  = Some (isoformat ends)).
  { unfold settled_task. fold running.
    change (next_available_at
              (get_state
                 (refresh_task (clock w2 (S (S (ticks w2))))
                    (mark_post_run_at (clock w2 (ticks w2)) running r))))
      with (next_available_at
              (get_state (mark_post_run_at (clock w2 (ticks w2)) running r))).
    rewrite mark_post_run_at_next.
    change (get_or (cooldown_sec (get_bounty running)) 0) with c.
    apply Z.ltb_lt in Hc. now rewrite Hc. }
  exists (ran_world w b0 t0 a0 r w2), (ran_store w b0 t0 a0 r w2),
    (board_of (clock w2 (S (S (S (ticks w2))))) (ran_store w b0 t0 a0 r w2)),
    (settled_task w t0 r w2), (board_entry (settled_task w t0 r w2)).
  split; [exact Hrun|]. split; [reflexivity|]. split; [reflexivity|].
  assert (Hnth : forall (A : Type) (l1 l2 : list A) (x : A),
             nth_error (l1 ++ x :: l2) (List.length l1) = Some x).
  { intros A l1 l2 x. induction l1; simpl; auto. }
  split.
  { rewrite get_tasks_ran_store.
    rewrite <- (length_map (refresh_task (clock w2 (S (S (ticks w2))))) b0).
    apply Hnth. }
  split.
  { unfold board_of. cbn [board_tasks]. rewrite get_tasks_ran_store.
    rewrite map_app. cbn [map].
    rewrite <- (length_map (refresh_task (clock w2 (S (S (ticks w2))))) b0).
    rewrite <- (length_map board_entry
                  (map (refresh_task (clock w2 (S (S (ticks w2))))) b0)).
    apply Hnth. }
  split; [exact Hflag|]. split; [exact Hnext|].
  split; [exact Hid|].
  split.
  - unfold board_entry. cbn [be_available]. now rewrite Hflag.
  - unfold board_entry. cbn [be_next_available_at]. exact Hnext.
Qed.

(** X22. A task is not run twice within its cooldown.  After a cycle that
    ran the only task with the id [tid], settled with a positive cooldown,
    a following cycle whose first clock reading is still before the end of
    the cooldown does not run [tid], whatever id is preferred. *)
Theorem no_second_run_within_cooldown (self : BackgroundTaskService)
    (p1 p2 : option string) (w w2 : World) (data : Data)
    (tid : string) (b0 a0 : list Task) (t0 : Task) (r : TaskRunResult) :
  task_store w = Some data ->
  _pick_task_id (refresh_at (clock w (ticks w)) data) p1 = Some tid ->
  tid <> "" ->
  get_tasks data = (b0 ++ t0 :: a0)%list ->
  task_id t0 = Some tid ->
  (forall t, In t (b0 ++ a0)%list -> task_id t <> Some tid) ->
  _execute_action self (mark_running (isoformat (clock w (S (ticks w)))) t0)
                  (tick (tick w))
  = (Ok r, w2) ->
  let c := get_or (cooldown_sec (get_bounty t0)) 0 in
  let ends := clock w2 (ticks w2) + timedelta_seconds c in
  0 < c ->
  parse_iso_or_none (Some (isoformat ends)) = Some ends ->
  clock w2 (4 + ticks w2) < ends ->
  exists w',
    run_once self p1 w = (Ok (Ran (Some tid) (ok r) (details r)), w')
    /\ forall ok_ details_ w'',
         run_once self p2 w' <> (Ok (Ran (Some tid) ok_ details_), w'').
Proof.
  intros Hstore Hpick Hne Hl Hid Huniq Hex c ends Hc Hrt Hlt.
  assert (Hsplit : split_first (has_id tid) (get_tasks data)
                   = Some (b0, t0, a0)).
  { rewrite Hl. apply split_first_intro.
    - apply eqb_opt_eq. exact Hid.
    - intros y Hy. apply eqb_opt_neq. apply Huniq. apply in_or_app.
      now left. }
  pose proof (run_once_selected self p1 w data tid b0 a0 t0
                Hstore Hpick Hne Hsplit) as Hrun.
  rewrite Hex in Hrun.
  exists (ran_world w b0 t0 a0 r w2). split; [exact Hrun|].
  intros ok_ details_ w'' H2.
  set (w' := ran_world w b0 t0 a0 r w2) in *.
  set (data' := ran_store w b0 t0 a0 r w2).
  assert (Hstore' : task_store w' = Some data') by reflexivity.
  destruct (run_once_cases self p2 w' data' Hstore')
    as [[_ Hidle]|(id & b1 & t1 & a1 & Hpick2 & _ & _ & Hrun2)];
    rewrite H2 in *; [discriminate|].
  assert (Eid : id = tid).
  { destruct (_execute_action self _ (tick (tick w'))) as [[r2|e2] w3];
      [|discriminate]. now injection Hrun2 as -> _ _ _. }
  subst id. clear Hrun2.
  destruct (pick_available _ _ _ Hpick2) as (t & Hin & Htid & Hst).
  rewrite get_tasks_refresh_at in Hin. apply in_map_iff in Hin.
  destruct Hin as [x [<- Hin]].
  rewrite state_available_refresh_task in Hst.
  change (task_id (refresh_task (clock w' (ticks w')) x)) with (task_id x)
    in Htid.
  unfold data' in Hin. rewrite get_tasks_ran_store in Hin.
  apply in_app_or in Hin. destruct Hin as [Hin|[<-|Hin]].
  - apply in_map_iff in Hin. destruct Hin as [y [<- Hy]].
    apply (Huniq y); [apply in_or_app; now left|exact Htid].
  - unfold settled_task in Hst. rewrite available_refresh_task in Hst.
    rewrite settled_unavailable in Hst; [discriminate| | |]; assumption.
  - apply in_map_iff in Hin. destruct Hin as [y [<- Hy]].
    apply (Huniq y); [apply in_or_app; now right|exact Htid].
Qed.

End CooldownAcrossCycles.

(* ===================================================================== *)
(** * The further properties on concrete stores *)
(* ===================================================================== *)

Lemma run_once_outcome {DT : Datetime} (self : BackgroundTaskService)
    (pref : option string) (w : World) (report : RunReport) :
  fst (run_once self pref w) = Ok report ->
  run_once self pref w = (Ok report, snd (run_once self pref w)).
Proof. intro H. rewrite <- H. apply surjective_pairing. Qed.


Lemma cycle_publishes_saved_store_witness :
  let DT := Iso8601.datetime in
  let w' := snd (run_once cli_service None (world_with [t1_task])) in
  exists saved board,
    task_store w' = Some saved
    /\ bounty_board w' = Some board
    /\ board_tasks board = map board_entry (get_tasks saved)
    /\ updated_at board = isoformat (clock w' (pred (ticks w')))
    /\ forall t, In t (get_tasks saved) ->
         available (get_state t)
         = Some (_available t (clock w' (pred (pred (ticks w'))))).
Proof.
  intros DT w'.
  apply (cycle_publishes_saved_store (DT := DT) cli_service None
           (world_with [t1_task]) w'
           (Ran (Some "t1") true "Wrote KMS/background_memory_update.log")).
  apply run_once_outcome. vm_compute. reflexivity.
Defined.

Lemma cycle_keeps_task_definitions_witness :
  let DT := Iso8601.datetime in
  let w := world_with [rich_task; dup_first; dup_late] in
  exists data saved,
    task_store w = Some data
    /\ task_store (snd (run_once cli_service (Some "dup") w)) = Some saved
    /\ Forall2 same_definition (get_tasks data) (get_tasks saved).
Proof.
  intros DT w.
  apply (cycle_keeps_task_definitions (DT := DT) cli_service (Some "dup") w _
           (Ran (Some "dup") true "Wrote KMS/background_service_reload.log")).
  apply run_once_outcome. vm_compute. reflexivity.
Defined.

Lemma running_is_never_saved_witness :
  let DT := Iso8601.datetime in
  let w := world_with [rich_task; dup_first; dup_late] in
  exists data saved,
    task_store w = Some data
    /\ task_store (snd (run_once cli_service None w)) = Some saved
    /\ Forall2 (fun old new =>
                  status (get_state new) = Some "running" ->
                  status (get_state old) = Some "running")
               (get_tasks data) (get_tasks saved).
Proof.
  intros DT w.
  apply (running_is_never_saved (DT := DT) cli_service None w _
           (Ran (Some "rich") true "Wrote KMS/background_memory_update.log")).
  apply run_once_outcome. vm_compute. reflexivity.
Defined.


Lemma padded_key_reaches_its_handler_witness :
  _execute_action cli_service padded_task
  = memory_update (service_adapter cli_service) padded_task.
Proof.
  destruct (padded_key_reaches_its_handler cli_service padded_task
              " " "" eq_refl eq_refl) as (H & _).
  apply H. reflexivity.
Defined.


Lemma selection_names_an_available_task_witness :
  exists t,
    In t [dup_first; dup_second; rich_task]
    /\ task_id t = Some "dup"
    /\ available (get_state t) = Some true.
Proof.
  apply (selection_names_an_available_task
           (mkData (Some [dup_first; dup_second; rich_task])) (Some "dup")
           "dup").
  reflexivity.
Defined.

Lemma selection_ignores_unavailable_tasks_witness :
  _pick_task_id (mkData (Some [dup_first; dup_second])) (Some "dup")
  = _pick_task_id (mkData (Some [dup_second])) (Some "dup")
  /\ _pick_task_id (mkData (Some [dup_first; dup_second])) None
     = _pick_task_id (mkData (Some [dup_second])) None.
Proof.
  split;
    apply (selection_ignores_unavailable_tasks
             (mkData (Some [dup_first; dup_second]))
             (mkData (Some [dup_second]))); reflexivity.
Defined.

Lemma greedy_selection_order_free_witness :
  _pick_task_id (mkData (Some [ranked "A" 10 1; ranked "B" 5 5])) None
  = _pick_task_id (mkData (Some [ranked "B" 5 5; ranked "A" 10 1])) None.
Proof.
  apply (greedy_selection_order_free
           (mkData (Some [ranked "A" 10 1; ranked "B" 5 5]))
           (mkData (Some [ranked "B" 5 5; ranked "A" 10 1])) None).
  - reflexivity.
  - apply perm_swap.
  - intros t Hin _. simpl in Hin. destruct Hin as [<-|[<-|[]]]; reflexivity.
  - intros a b Ha Hb _ _ Hab Hba. simpl in Ha, Hb.
    destruct Ha as [<-|[<-|[]]], Hb as [<-|[<-|[]]]; try reflexivity.
    + exfalso. apply Hba. left. vm_compute. reflexivity.
    + exfalso. apply Hab. left. vm_compute. reflexivity.
Defined.



Lemma report_matches_saved_record_witness :
  let DT := Iso8601.datetime in
  let w' := snd (run_once cli_service (Some "d")
                          (world_with [rich_task; dance_task])) in
  PyStr.truthy (Some "d") = true
  /\ exists before settled after,
       task_store w'
       = Some (mkData (Some (before ++ settled :: after)%list))
       /\ task_id settled = Some "d"
       /\ (forall b, In b before -> task_id b <> Some "d")
       /\ status (get_state settled) = Some "failed"
       /\ last_result (get_state settled) = Some "Unknown action: dance"
       /\ consecutive_failures (get_state settled) <> None
       /\ last_started_at (get_state settled) <> None
       /\ last_completed_at (get_state settled) <> None.
Proof.
  intros DT w'.
  apply (report_matches_saved_record (DT := DT) cli_service (Some "d")
           (world_with [rich_task; dance_task]) w' (Some "d") false
           "Unknown action: dance").
  apply run_once_outcome. vm_compute. reflexivity.
Defined.

Lemma cooldown_gate_witness :
  let DT := Iso8601.datetime in
  let T := 1730629800000000 in
  (forall t, _available (mark_post_run_at T cooldown30_task success) t
             = negb (t <? T + timedelta_seconds 30))
  /\ (forall t, _available (mark_post_run_at T rich_task failure) t = true).
Proof.
  intros DT T. split.
  - destruct (cooldown_gate (DT := DT) cooldown30_task T success) as [H _];
      [discriminate|].
    apply H; [reflexivity|]. vm_compute. reflexivity.
  - destruct (cooldown_gate (DT := DT) rich_task T failure) as [_ H];
      [discriminate|].
    apply H. discriminate.
Defined.

Lemma consecutive_failures_count_witness :
  let DT := Iso8601.datetime in
  get_or (consecutive_failures
            (get_state (settle_all [(1, failure); (2, failure)] dance_task))) 0
  = 3 + 2
  /\ get_or (consecutive_failures
               (get_state (settle_all [(1, failure); (2, success);
                                       (3, failure); (4, failure)]
                                      dance_task))) 0
     = 2.
Proof.
  intro DT.
  destruct (consecutive_failures_count (DT := DT) dance_task [(1, failure)]
              [(3, failure); (4, failure)] 2 success) as [_ H2];
    [repeat constructor|].
  destruct (consecutive_failures_count (DT := DT) dance_task []
              [(1, failure); (2, failure)] 0 success) as [H1 _];
    [repeat constructor|].
  split; [exact H1|]. exact (H2 eq_refl).
Defined.

Lemma two_idle_cycles_witness :
  let DT := Iso8601.datetime in
  let w := world_with [dup_first] in
  let saved := refresh_at (clock w (4 + ticks w)) (mkData (Some [dup_first])) in
  (run_once cli_service None ;;; run_once cli_service (Some "dup")) w
  = (Ok (NotRun "no_available_task"),
     mkWorld (clock w) (6 + ticks w) (Some saved)
             (Some (board_of (clock w (5 + ticks w)) saved)) (text_files w)).
Proof.
  intros DT w.
  apply (two_idle_cycles (DT := DT) cli_service None (Some "dup") w
           (mkData (Some [dup_first]))).
  - reflexivity.
  - vm_compute. reflexivity.
  - vm_compute. reflexivity.
Defined.

Lemma loop_dies_without_task_file_witness :
  let DT := Iso8601.datetime in
  run_forever 5 cli_service (PyFloat.of_Z 5) frozen_world
  = (Raise (FileNotFoundError "Task file not found: background_tasks.json"),
     frozen_world).
Proof.
  intro DT.
  apply (loop_dies_without_task_file (DT := DT) cli_service (PyFloat.of_Z 5) 4
           frozen_world).
  reflexivity.
Defined.


(** Three turns of the loop on a store with one task and a cooldown of a
    minute, the clock advancing by a second at every reading: the task runs
    in the first turn and is cooling down in the next two. *)
Example loop_logs_the_cycles_that_ran :
  let DT := Iso8601.datetime in
  fst (run_forever 3 cli_service (PyFloat.of_Z 5) (world_with [t1_task]))
  = Ok [Ran (Some "t1") true "Wrote KMS/background_memory_update.log"].
Proof. vm_compute. reflexivity. Qed.

Lemma execute_outcome (self : BackgroundTaskService) (task : Task)
    (w : World) (r : TaskRunResult) :
  fst (_execute_action self task w) = Ok r ->
  _execute_action self task w = (Ok r, snd (_execute_action self task w)).
Proof. intro H. rewrite <- H. apply surjective_pairing. Qed.

Lemma cooling_task_is_published_unavailable_witness :
  let DT := Iso8601.datetime in
  let w := world_with [rich_task; t1_task] in
  exists w' saved board settled entry,
    run_once cli_service (Some "t1") w
    = (Ok (Ran (Some "t1") true "Wrote KMS/background_memory_update.log"), w')
    /\ task_store w' = Some saved
    /\ bounty_board w' = Some board
    /\ nth_error (get_tasks saved) 1 = Some settled
    /\ nth_error (board_tasks board) 1 = Some entry
    /\ available (get_state settled) = Some false
    /\ next_available_at (get_state settled)
       = Some "2024-11-03T10:31:03+00:00"
    /\ be_id entry = Some "t1"
    /\ be_available entry = false
    /\ be_next_available_at entry = Some "2024-11-03T10:31:03+00:00".
Proof.
  intros DT w.
  set (running := mark_running (isoformat (clock w (S (ticks w)))) t1_task).
  set (w2 := snd (_execute_action cli_service running (tick (tick w)))).
  replace "2024-11-03T10:31:03+00:00"
    with (isoformat (clock w2 (ticks w2) + timedelta_seconds 60))
    by (vm_compute; reflexivity).
  apply (cooling_task_is_published_unavailable (DT := DT) cli_service
           (Some "t1") w w2 (mkData (Some [rich_task; t1_task])) "t1"
           [rich_task] [] t1_task
           (mkTaskRunResult true "Wrote KMS/background_memory_update.log")).
  - reflexivity.
  - vm_compute. reflexivity.
  - discriminate.
  - reflexivity.
  - reflexivity.
  - intros b [<-|[]]. discriminate.
  - apply execute_outcome. vm_compute. reflexivity.
  - reflexivity.
  - vm_compute. reflexivity.
  - vm_compute. reflexivity.
Defined.

Lemma no_second_run_within_cooldown_witness :
  let DT := Iso8601.datetime in
  let w := world_with [rich_task; t1_task] in
  exists w',
    run_once cli_service (Some "t1") w
    = (Ok (Ran (Some "t1") true "Wrote KMS/background_memory_update.log"), w')
    /\ forall ok_ details_ w'',
         run_once cli_service (Some "t1") w'
         <> (Ok (Ran (Some "t1") ok_ details_), w'').
Proof.
  intros DT w.
  set (running := mark_running (isoformat (clock w (S (ticks w)))) t1_task).
  set (w2 := snd (_execute_action cli_service running (tick (tick w)))).
  apply (no_second_run_within_cooldown (DT := DT) cli_service
           (Some "t1") (Some "t1") w w2 (mkData (Some [rich_task; t1_task]))
           "t1" [rich_task] [] t1_task
           (mkTaskRunResult true "Wrote KMS/background_memory_update.log")).
  - reflexivity.
  - vm_compute. reflexivity.
  - discriminate.
  - reflexivity.
  - reflexivity.
  - intros t [<-|[]]. discriminate.
  - apply execute_outcome. vm_compute. reflexivity.
  - reflexivity.
  - vm_compute. reflexivity.
  - vm_compute. reflexivity.
Defined.
